(** * sqlite-vector: the virtual-table adapter

    A shallow embedding of [src/virtual_table.h] and [src/virtual_table.cpp]
    (class [VirtualTable], its [Cursor], the scalar function [KnnParamFunc])
    and the properties of the adapter's callbacks.

    The host engine (SQLite) and the ANN library (hnswlib) are external:
    host values are observed through the accessors the adapter calls, and the
    index is an interface ([HierarchicalNSW]) with the three operations the
    adapter uses. *)

From Stdlib Require Import ZArith Lia.
From Stdlib.Strings Require Import Byte Ascii.
From stdpp Require Import base list strings pretty gmap.

Local Open Scope Z_scope.

(* ================================================================== *)
(** ** Host constants (sqlite3.h) *)

Definition SQLITE_OK : Z := 0.
Definition SQLITE_ERROR : Z := 1.

Definition SQLITE_INTEGER : Z := 1.
Definition SQLITE_FLOAT : Z := 2.
Definition SQLITE_TEXT : Z := 3.
Definition SQLITE_BLOB : Z := 4.
Definition SQLITE_NULL : Z := 5.

Definition SQLITE_INDEX_CONSTRAINT_FUNCTION : Z := 150.

(** Fixed-width integers: [sqlite3_int64], [int] and [size_t] as [Z] with the
    wrap-around of a conversion written out. *)
Definition INT64_MAX : Z := 2 ^ 63 - 1.
Definition to_int64 (z : Z) : Z := (z + 2 ^ 63) mod 2 ^ 64 - 2 ^ 63.
Definition to_int32 (z : Z) : Z := (z + 2 ^ 31) mod 2 ^ 32 - 2 ^ 31.

(** [hnswlib::labeltype] is [size_t]; the adapter is built for 64-bit
    targets only (the wheel configuration skips the 32-bit ones, and
    [GetVectorByRowid] notes that [sizeof(rowid) != sizeof(labeltype)] is not
    handled). *)
Definition labeltype_max : Z := 2 ^ 64 - 1.
Definition static_cast_labeltype (rowid : Z) : Z := rowid mod 2 ^ 64.

(* ================================================================== *)
(** ** The host's formatter

    [sqlite3_vmprintf] for the conversions the adapter uses: [%d], [%lld],
    [%s].  An integer argument is printed in decimal; a conversion without a
    matching argument prints nothing. *)

Inductive printf_arg :=
| ArgInt (z : Z)
| ArgStr (s : string).

Definition render_int (args : list printf_arg) : string :=
  match args with
  | ArgInt z :: _ => pretty z
  | _ => ""
  end.

Definition render_str (args : list printf_arg) : string :=
  match args with
  | ArgStr s :: _ => s
  | _ => ""
  end.

Fixpoint sqlite3_vmprintf (fmt : string) (args : list printf_arg) : string :=
  match fmt with
  | EmptyString => EmptyString
  | String c rest =>
    if Ascii.eqb c "%"%char then
      match rest with
      | EmptyString => String c EmptyString
      | String c1 rest1 =>
        if Ascii.eqb c1 "d"%char then
          render_int args +:+ sqlite3_vmprintf rest1 (tail args)
        else if Ascii.eqb c1 "s"%char then
          render_str args +:+ sqlite3_vmprintf rest1 (tail args)
        else
          match rest1 with
          | String c2 (String c3 rest3) =>
            if Ascii.eqb c1 "l"%char && Ascii.eqb c2 "l"%char && Ascii.eqb c3 "d"%char then
              render_int args +:+ sqlite3_vmprintf rest3 (tail args)
            else String c (sqlite3_vmprintf rest args)
          | _ => String c (sqlite3_vmprintf rest args)
          end
      end
    else String c (sqlite3_vmprintf rest args)
  end.

(* ================================================================== *)
(** ** Vector (vector.h)

    A [float] is kept as the four bytes of its object representation: the
    adapter only moves floats between blobs and the index.  Arithmetic on
    them ([Normalize], distances) stays abstract. *)

Definition float : Type := byte * byte * byte * byte.

Record Vector := { data : list float }.

Definition dim (v : Vector) : nat := length (data v).

(** [absl::Status] / [absl::StatusOr<T>]. *)
Record Status := { message : string }.

Inductive StatusOr (A : Type) :=
| Ok (a : A)
| NotOk (st : Status).
Arguments Ok {A} a.
Arguments NotOk {A} st.

Definition ok {A} (r : StatusOr A) : bool :=
  match r with Ok _ => true | NotOk _ => false end.

Fixpoint chunk4 (bs : list byte) : list float :=
  match bs with
  | b0 :: b1 :: b2 :: b3 :: rest => (b0, b1, b2, b3) :: chunk4 rest
  | _ => []
  end.

(** Modelled from the spec: the text of the status [Vector::FromBlob] returns
    on a bad blob is in [vector.cpp], which is missing; the spec only names
    the error kind, and that name stands for the text. *)
Definition kDecodeError : Status := {| message := "DecodeError" |}.

(** Modelled from the spec: [Vector::FromBlob] lives in [vector.cpp], which is
    missing.  "Succeeds iff [len(bytes) > 0 ∧ len(bytes) mod 4 = 0]; yields a
    vector of dimension [len(bytes)/4]"; the blob is the contiguous bytes of
    the float array. *)
Definition FromBlob (blob : list byte) : StatusOr Vector :=
  let len := Z.of_nat (length blob) in
  if (0 <? len) && (len mod 4 =? 0) then Ok {| data := chunk4 blob |}
  else NotOk kDecodeError.

(** Modelled from the spec: [Vector::ToBlob] lives in [vector.cpp], which is
    missing.  "Bit-exact inverse of [from_blob]". *)
Definition ToBlob (v : Vector) : list byte :=
  flat_map (fun f => let '(b0, b1, b2, b3) := f in [b0; b1; b2; b3]) (data v).

(** Floating-point operations of [Vector] that the adapter calls. *)
Class VectorMath := {
  Normalize : Vector -> Vector;
}.

(* ================================================================== *)
(** ** KnnParam and host values *)

Definition kKnnParamType : string := "vector_search_knn_param".

Record KnnParam := {
  param_query_vector : Vector;
  k : Z;   (* uint32_t *)
}.

(** A [sqlite3_value], observed through the accessors the adapter calls:
    [sqlite3_value_type], [sqlite3_value_int64] / [sqlite3_value_int],
    [sqlite3_value_blob] with [sqlite3_value_bytes], and
    [sqlite3_value_pointer].  A pointer value carries the type tag it was
    bound with. *)
Record sqlite3_value := {
  value_type : Z;
  value_int64 : Z;
  value_blob : list byte;
  value_pointer : option (string * KnnParam);
}.

Definition sqlite3_value_type (v : sqlite3_value) : Z := value_type v.
Definition sqlite3_value_int64 (v : sqlite3_value) : Z := to_int64 (value_int64 v).
Definition sqlite3_value_int (v : sqlite3_value) : Z := to_int32 (value_int64 v).
Definition sqlite3_value_blob (v : sqlite3_value) : list byte := value_blob v.
Definition sqlite3_value_bytes (v : sqlite3_value) : nat := length (value_blob v).

(** [sqlite3_value_pointer(v, tag)]: the pointer when [v] was bound with a
    tag that compares equal, [NULL] otherwise. *)
Definition sqlite3_value_pointer (v : sqlite3_value) (tag : string) : option KnnParam :=
  match value_pointer v with
  | Some (t, p) => if String.eqb t tag then Some p else None
  | None => None
  end.

(** The values the host builds. *)
Definition null_value : sqlite3_value :=
  {| value_type := SQLITE_NULL; value_int64 := 0; value_blob := []; value_pointer := None |}.
Definition integer_value (i : Z) : sqlite3_value :=
  {| value_type := SQLITE_INTEGER; value_int64 := i; value_blob := []; value_pointer := None |}.
Definition blob_value (b : list byte) : sqlite3_value :=
  {| value_type := SQLITE_BLOB; value_int64 := 0; value_blob := b; value_pointer := None |}.
(** To everything but [sqlite3_value_pointer] a pointer value looks like NULL. *)
Definition pointer_value (p : KnnParam) (tag : string) : sqlite3_value :=
  {| value_type := SQLITE_NULL; value_int64 := 0; value_blob := [];
     value_pointer := Some (tag, p) |}.

(** What a callback hands back through its [sqlite3_context]. *)
Inductive context_result :=
| ResultError (msg : string)
| ResultPointer (p : KnnParam) (tag : string)
| ResultDouble (d : float)   (* [static_cast<double>] of a float is exact *)
| ResultBlob (b : list byte)
| ResultText (s : string).

(** The value the host makes of a function's result. *)
Definition value_of_result (r : context_result) : sqlite3_value :=
  match r with
  | ResultPointer p tag => pointer_value p tag
  | ResultBlob b => blob_value b
  | _ => null_value
  end.

(* ================================================================== *)
(** ** The ANN index (hnswlib) *)

(** A call that returns or throws [std::runtime_error(what)]. *)
Inductive Exc (A : Type) :=
| Value (a : A)
| Raise (what : string).
Arguments Value {A} a.
Arguments Raise {A} what.

(** [hnswlib::HierarchicalNSW<float>], as far as the adapter uses it. *)
Class HierarchicalNSW (Index : Type) := {
  addPoint : Index -> list float -> Z -> Exc Index;
  searchKnnCloserFirst : Index -> list float -> Z -> list (float * Z);
  getDataByLabel : Index -> Z -> Exc (list float);
}.

(* ================================================================== *)
(** ** How a callback ends

    Modelled from the spec: [SQLITE_VECTOR_ASSERT] is defined in [macros.h],
    which is missing.  "The adapter's internal invariants ... are enforced by
    assertion and are fatal if violated": a failed assertion ends the
    callback without a return value. *)

Inductive outcome (S : Type) :=
| Returned (rc : Z) (s : S)        (* the callback returns [rc] *)
| Thrown (what : string) (s : S)   (* a C++ exception leaves the callback *)
| AssertionFailed                  (* a [SQLITE_VECTOR_ASSERT] fails *)
| OutOfBounds.                     (* an array is read past its end *)
Arguments Returned {S} rc s.
Arguments Thrown {S} what s.
Arguments AssertionFailed {S}.
Arguments OutOfBounds {S}.

(* ================================================================== *)
(** ** The adapter's data (virtual_table.h, virtual_table.cpp) *)

(** [enum ColumnIndexInTable] *)
Definition kColumnIndexVector : Z := 0.
Definition kColumnIndexDistance : Z := 1.

(** [enum IndexConstraintUsage] *)
Definition kVector : Z := 1.
Definition kRowid : Z := 2.

(** [enum FunctionConstraint] *)
Definition kFunctionConstraintVectorSearchKnn : Z := SQLITE_INDEX_CONSTRAINT_FUNCTION.

(** [absl::StrFormat], for the conversions of [sqlite3_vmprintf]. *)
Definition StrFormat : string -> list printf_arg -> string := sqlite3_vmprintf.

(** The members of the vector space that the adapter reads
    ([vtab->space_.normalize], [vtab->dimension()]). *)
Record NamedVectorSpace := {
  normalize : bool;
  space_dimension : nat;
  vector_name : string;
}.

(** [class VirtualTable : public sqlite3_vtab].  [zErrMsg] is the member of
    the base struct: [None] is the null pointer. *)
Record VirtualTable (Index : Type) := {
  zErrMsg : option string;
  space_ : NamedVectorSpace;
  index_ : Index;
  rowids_ : gset Z;
}.
Arguments zErrMsg {Index} _.
Arguments space_ {Index} _.
Arguments index_ {Index} _.
Arguments rowids_ {Index} _.

(** [struct Cursor]: [current_row] is an iterator into [result], kept as its
    offset from [result.cbegin()]. *)
Record Cursor := {
  result : list (float * Z);
  current_row : nat;
  query_vector : Vector;
}.

Definition cbegin (result : list (float * Z)) : nat := 0%nat.
Definition cend (result : list (float * Z)) : nat := length result.

(** [Cursor(VirtualTable* vtab) : result(), current_row(result.cend()),
    query_vector()] *)
Definition Cursor_new : Cursor :=
  {| result := []; current_row := cend []; query_vector := {| data := [] |} |}.

(** [sqlite3_index_info], the members [BestIndex] touches;
    [nConstraint] is the length of [aConstraint]. *)
Record sqlite3_index_constraint := {
  iColumn : Z;
  op : Z;       (* unsigned char *)
  usable : Z;   (* unsigned char *)
}.

Record sqlite3_index_constraint_usage := {
  argvIndex : Z;
  omit : Z;     (* unsigned char *)
}.

Record sqlite3_index_info := {
  aConstraint : list sqlite3_index_constraint;
  aConstraintUsage : list sqlite3_index_constraint_usage;
  idxNum : Z;
}.

Definition nConstraint (info : sqlite3_index_info) : nat := length (aConstraint info).

Section Adapter.

Context {Index : Type} `{!HierarchicalNSW Index} `{!VectorMath}.

Definition dimension (vtab : VirtualTable Index) : nat :=
  space_dimension (space_ vtab).

(** [SetZErrMsg(&vtab->zErrMsg, fmt, ...)]: the old message is freed and
    the new one takes its place. *)
Definition SetZErrMsg (vtab : VirtualTable Index) (fmt : string)
    (args : list printf_arg) : VirtualTable Index :=
  {| zErrMsg := Some (sqlite3_vmprintf fmt args);
     space_ := space_ vtab; index_ := index_ vtab; rowids_ := rowids_ vtab |}.

(** ** Open, Eof, Next, Rowid *)

Definition Open (vtab : VirtualTable Index) : Z * Cursor :=
  (SQLITE_OK, Cursor_new).

Definition Eof (cursor : Cursor) : Z :=
  if (current_row cursor =? cend (result cursor))%nat then 1 else 0.

Definition Next (cursor : Cursor) : Z * Cursor :=
  if negb (current_row cursor =? cend (result cursor))%nat then
    (SQLITE_OK,
     {| result := result cursor; current_row := S (current_row cursor);
        query_vector := query_vector cursor |})
  else (SQLITE_OK, cursor).

Definition Rowid (cursor : Cursor) (pRowid : Z) : outcome Z :=
  if negb (current_row cursor =? cend (result cursor))%nat then
    match result cursor !! current_row cursor with
    | Some row => Returned SQLITE_OK row.2
    | None => OutOfBounds
    end
  else Returned SQLITE_ERROR pRowid.

(** ** Column *)

(** [None]: the assertion [vec.size() == dimension()] fails. *)
Definition GetVectorByRowid (vtab : VirtualTable Index) (rowid : Z)
    : option (StatusOr Vector) :=
  match getDataByLabel (index_ vtab) (static_cast_labeltype rowid) with
  | Value vec =>
    if (length vec =? dimension vtab)%nat then Some (Ok {| data := vec |})
    else None
  | Raise what => Some (NotOk {| message := what |})
  end.

(** [pCtx] is what the context holds as its result so far. *)
Definition Column (vtab : VirtualTable Index) (cursor : Cursor)
    (pCtx : option context_result) (N : Z) : outcome (option context_result) :=
  if (current_row cursor =? cend (result cursor))%nat then
    Returned SQLITE_ERROR pCtx
  else if kColumnIndexDistance =? N then
    match result cursor !! current_row cursor with
    | Some row => Returned SQLITE_OK (Some (ResultDouble row.1))
    | None => OutOfBounds
    end
  else if kColumnIndexVector =? N then
    match result cursor !! current_row cursor with
    | Some row =>
      let rowid := row.2 in
      match GetVectorByRowid vtab rowid with
      | Some (Ok vector) =>
        Returned SQLITE_OK (Some (ResultBlob (ToBlob vector)))
      | Some (NotOk _) =>
        let err := StrFormat "Can't find vector with rowid %d" [ArgInt rowid] in
        Returned SQLITE_ERROR (Some (ResultText err))
      | None => AssertionFailed
      end
    | None => OutOfBounds
    end
  else
    let err := StrFormat "Invalid column index: %d" [ArgInt N] in
    Returned SQLITE_ERROR (Some (ResultText err)).

(** ** BestIndex *)

Definition set_usage (info : sqlite3_index_info) (i : nat) (idx : Z)
    (argv_index : Z) : sqlite3_index_info :=
  {| aConstraint := aConstraint info;
     aConstraintUsage :=
       <[i := {| argvIndex := argv_index; omit := 1 |}]> (aConstraintUsage info);
     idxNum := idx |}.

(** The body of the [for] loop at constraint [i]. *)
Definition BestIndex_body (i : nat) (constraint : sqlite3_index_constraint)
    (info : sqlite3_index_info) : sqlite3_index_info :=
  if usable constraint =? 0 then info
  else
    let column := iColumn constraint in
    if (op constraint =? kFunctionConstraintVectorSearchKnn)
       && (column =? kColumnIndexVector) then
      set_usage info i kVector 1
    else if column =? -1 then
      set_usage info i kRowid 2
    else info.

(** The loop from [i] on, over the constraints [aConstraint[i..]]. *)
Fixpoint BestIndex_loop (rest : list sqlite3_index_constraint) (i : nat)
    (info : sqlite3_index_info) : sqlite3_index_info :=
  match rest with
  | [] => info
  | constraint :: rest' =>
    BestIndex_loop rest' (S i) (BestIndex_body i constraint info)
  end.

Definition BestIndex (vtab : VirtualTable Index) (index_info : sqlite3_index_info)
    : Z * sqlite3_index_info :=
  (SQLITE_OK, BestIndex_loop (aConstraint index_info) 0%nat index_info).

(** ** Filter *)

Definition Filter (vtab : VirtualTable Index) (cursor : Cursor) (idxNum : Z)
    (argv : list sqlite3_value) : outcome (VirtualTable Index * Cursor) :=
  if idxNum =? kVector then
    match argv !! 0%nat with
    | None => OutOfBounds
    | Some argv0 =>
      match sqlite3_value_pointer argv0 kKnnParamType with
      | None =>
        Returned SQLITE_ERROR
          (SetZErrMsg vtab
             "knn_param() should be used for the 2nd param of knn_search" [],
           cursor)
      | Some param =>
        let query_vector := param_query_vector param in
        let k := k param in
        if negb (dim query_vector =? dimension vtab)%nat then
          Returned SQLITE_ERROR
            (SetZErrMsg vtab
               "Dimension mismatch: query vector has dimension %d, but the table has dimension %d"
               [ArgInt (Z.of_nat (dim query_vector));
                ArgInt (Z.of_nat (dimension vtab))],
             cursor)
        else
          let stored :=
            if normalize (space_ vtab) then Normalize query_vector
            else query_vector in
          let knn := searchKnnCloserFirst (index_ vtab) (data stored) k in
          if negb (length (result cursor) =? 0)%nat then AssertionFailed
          else
            Returned SQLITE_OK
              (vtab,
               {| result := knn; current_row := cbegin knn;
                  query_vector := stored |})
      end
    end
  else
    Returned SQLITE_ERROR
      (SetZErrMsg vtab "Invalid index number: %d" [ArgInt idxNum], cursor).

(** ** KnnParamFunc

    The function returns nothing: its result is what it leaves in the
    context.  [None]: [argv] is read past its end. *)

Definition KnnParamFunc (argv : list sqlite3_value) : option context_result :=
  if negb (Z.of_nat (length argv) =? 2) then
    Some (ResultError "Number of parameter is not 2")
  else
    match argv !! 0%nat, argv !! 1%nat with
    | Some argv0, Some argv1 =>
      if negb (sqlite3_value_type argv0 =? SQLITE_BLOB) then
        Some (ResultError "Vector(1st param) should be of type Blob")
      else if negb (sqlite3_value_type argv1 =? SQLITE_INTEGER) then
        Some (ResultError "k(2nd param) should be of type INTEGER")
      else
        match FromBlob (sqlite3_value_blob argv0) with
        | NotOk st =>
          let err :=
            StrFormat "Failed to parse vector due to: %s" [ArgStr (message st)] in
          Some (ResultError err)
        | Ok vec =>
          let k := sqlite3_value_int argv1 in
          if k <=? 0 then Some (ResultError "k should be greater than 0")
          else
            Some (ResultPointer
                    {| param_query_vector := vec; k := k mod 2 ^ 32 |}
                    kKnnParamType)
        end
    | _, _ => None
    end.

(** ** Update *)

Definition add_row (vtab : VirtualTable Index) (index' : Index) (rowid : Z)
    : VirtualTable Index :=
  {| zErrMsg := zErrMsg vtab; space_ := space_ vtab; index_ := index';
     rowids_ := {[rowid]} ∪ rowids_ vtab |}.

(** [pRowid] is what [*pRowid] holds on entry; the outcome carries what it
    holds on exit. *)
Definition Update (vtab : VirtualTable Index) (argv : list sqlite3_value)
    (pRowid : Z) : outcome (VirtualTable Index * Z) :=
  let argc := Z.of_nat (length argv) in
  let not_supported :=
    Returned SQLITE_ERROR
      (SetZErrMsg vtab "Operation not supported for now" [], pRowid) in
  if 1 <? argc then
    match argv !! 0%nat, argv !! 1%nat with
    | Some argv0, Some argv1 =>
      if sqlite3_value_type argv0 =? SQLITE_NULL then
        if sqlite3_value_type argv1 =? SQLITE_NULL then
          Returned SQLITE_ERROR
            (SetZErrMsg vtab "rowid must be specified during insertion" [],
             pRowid)
        else
          let raw_rowid := sqlite3_value_int64 argv1 in
          if (raw_rowid >? INT64_MAX) || (raw_rowid <? 0) then
            Returned SQLITE_ERROR
              (SetZErrMsg vtab "rowid %lld out of range" [ArgInt raw_rowid],
               pRowid)
          else
            let rowid := to_int64 raw_rowid in
            let pRowid := rowid in
            match argv !! 2%nat with
            | None => OutOfBounds
            | Some argv2 =>
              if negb (sqlite3_value_type argv2 =? SQLITE_BLOB) then
                Returned SQLITE_ERROR
                  (SetZErrMsg vtab "vector must be of type Blob" [], pRowid)
              else
                match FromBlob (sqlite3_value_blob argv2) with
                | Ok vector =>
                  if negb (dim vector =? dimension vtab)%nat then
                    Returned SQLITE_ERROR
                      (SetZErrMsg vtab
                         "Dimension mismatch: vector has dimension %d, but the table has dimension %d"
                         [ArgInt (Z.of_nat (dim vector));
                          ArgInt (Z.of_nat (dimension vtab))],
                       pRowid)
                  else
                    let point :=
                      if normalize (space_ vtab) then data (Normalize vector)
                      else data vector in
                    match addPoint (index_ vtab) point
                            (static_cast_labeltype rowid) with
                    | Raise what => Thrown what (vtab, pRowid)
                    | Value index' =>
                      Returned SQLITE_OK (add_row vtab index' rowid, pRowid)
                    end
                | NotOk st =>
                  Returned SQLITE_ERROR
                    (SetZErrMsg vtab "Failed to perform insertion due to: %s"
                       [ArgStr (message st)],
                     pRowid)
                end
            end
      else not_supported
    | _, _ => OutOfBounds
    end
  else not_supported.

End Adapter.

(* ================================================================== *)
(** ** A reference index and concrete tables *)

(** Modelled from the spec: hnswlib is not part of the sources.  "[add(label,
    vec)]: inserts a point.  Fails if the label collides with an existing
    label or if size would exceed [max_elements]"; "[get_by_label(label) →
    Vector | NotFound]"; "[search_knn] returns up to [k] entries".  A failing
    call throws, as [GetVectorByRowid] expects of the library.  Distances are
    floating point and are not computed: the search reports the first [k]
    stored points, each at the distance whose bytes are zero. *)
Record BoundedIndex := {
  max_elements : nat;
  points : list (Z * list float);
}.

Definition has_label (idx : BoundedIndex) (label : Z) : bool :=
  existsb (fun p => p.1 =? label) (points idx).

Definition zero_distance : float := (x00, x00, x00, x00).

#[global] Instance BoundedIndex_HierarchicalNSW : HierarchicalNSW BoundedIndex := {
  addPoint idx point label :=
    if has_label idx label then Raise "The label is already in the index"
    else if (max_elements idx <=? length (points idx))%nat then
      Raise "The number of elements exceeds the specified limit"
    else
      Value {| max_elements := max_elements idx;
               points := points idx ++ [(label, point)] |};
  searchKnnCloserFirst idx query k :=
    take (Z.to_nat k) (map (fun p => (zero_distance, p.1)) (points idx));
  getDataByLabel idx label :=
    match find (fun p => p.1 =? label) (points idx) with
    | Some p => Value p.2
    | None => Raise "Label not found"
    end;
}.

(** Normalization is floating point and is not computed; the concrete tables
    below have [normalize = false], so this instance is never called. *)
#[global] Instance VectorMath_unscaled : VectorMath := {
  Normalize v := v;
}.

Definition l2_space (d : nat) : NamedVectorSpace :=
  {| normalize := false; space_dimension := d; vector_name := "v" |}.

(** A freshly created table of dimension [d] and capacity [cap]. *)
Definition new_table (d cap : nat) : VirtualTable BoundedIndex :=
  {| zErrMsg := None; space_ := l2_space d;
     index_ := {| max_elements := cap; points := [] |}; rowids_ := ∅ |}.

(** The blobs of [[1.0, 0.0]], [[0.0, 1.0]] and [[1.0, 1.0]], and a blob of
    seven bytes. *)
Definition blob_1_0 : list byte := [x00; x00; x80; x3f; x00; x00; x00; x00].
Definition blob_0_1 : list byte := [x00; x00; x00; x00; x00; x00; x80; x3f].
Definition blob_1_1 : list byte := [x00; x00; x80; x3f; x00; x00; x80; x3f].
Definition blob_7_bytes : list byte := [x00; x00; x80; x3f; x00; x00; x00].

(** [INSERT INTO t(rowid, v) VALUES (rowid, blob)]: [argv[0]] is NULL,
    [argv[1]] the rowid, then one value per declared column (the vector and
    the hidden distance). *)
Definition insert_argv (rowid : sqlite3_value) (vector : sqlite3_value)
    : list sqlite3_value :=
  [null_value; rowid; vector; null_value].

(** The table after [INSERT INTO t(rowid, v) VALUES (1, blob_1_0)] into
    [new_table 2 2]. *)
Definition one_row_table : VirtualTable BoundedIndex :=
  {| zErrMsg := None; space_ := l2_space 2;
     index_ := {| max_elements := 2;
                  points := [(1, [(x00, x00, x80, x3f); (x00, x00, x00, x00)])] |};
     rowids_ := {[1]} ∪ ∅ |}.

(** The value of [knn_param(blob_1_0, 1)], and of a query of dimension 1. *)
Definition query_2d : KnnParam :=
  {| param_query_vector := {| data := chunk4 blob_1_0 |}; k := 1 |}.
Definition query_1d : KnnParam :=
  {| param_query_vector := {| data := [(x00, x00, x80, x3f)] |}; k := 1 |}.

(** A plan with three constraints: [knn_search] on the vector column, a
    constraint on the distance column, and [rowid = ?] (operator
    [SQLITE_INDEX_CONSTRAINT_EQ], 2); the host hands in zeroed usage entries. *)
Definition knn_then_rowid : sqlite3_index_info :=
  {| aConstraint :=
       [ {| iColumn := 0; op := 150; usable := 1 |};
         {| iColumn := 1; op := 2; usable := 1 |};
         {| iColumn := -1; op := 2; usable := 1 |} ];
     aConstraintUsage :=
       [ {| argvIndex := 0; omit := 0 |};
         {| argvIndex := 0; omit := 0 |};
         {| argvIndex := 0; omit := 0 |} ];
     idxNum := 0 |}.

(* ================================================================== *)
(** ** What the properties speak of *)

Section Statements.

Context {Index : Type} `{!HierarchicalNSW Index} `{!VectorMath}.

(** The callback returns [SQLITE_ERROR] with [msg] as the table's error
    message; the vector space, the index and the known-row set are as in
    [vtab], and the caller-visible state [s] (cursor or [*pRowid]) is what
    the outcome carries. *)
Definition fails_with {S : Type} (o : outcome (VirtualTable Index * S))
    (vtab : VirtualTable Index) (s : S) (msg : string) : Prop :=
  exists vtab',
    o = Returned SQLITE_ERROR (vtab', s) /\
    zErrMsg vtab' = Some msg /\
    space_ vtab' = space_ vtab /\
    index_ vtab' = index_ vtab /\
    rowids_ vtab' = rowids_ vtab.

(** The calling convention of an insert: [argc > 1], [argv[0]] is NULL and
    [argv[1]] is not. *)
Definition insert_signature (argv : list sqlite3_value) : bool :=
  (1 <? Z.of_nat (length argv)) &&
  match argv !! 0%nat, argv !! 1%nat with
  | Some argv0, Some argv1 =>
    (sqlite3_value_type argv0 =? SQLITE_NULL) &&
    negb (sqlite3_value_type argv1 =? SQLITE_NULL)
  | _, _ => false
  end.

(** An insert whose rowid argument is NULL. *)
Definition insert_without_rowid (argv : list sqlite3_value) : bool :=
  (1 <? Z.of_nat (length argv)) &&
  match argv !! 0%nat, argv !! 1%nat with
  | Some argv0, Some argv1 =>
    (sqlite3_value_type argv0 =? SQLITE_NULL) &&
    (sqlite3_value_type argv1 =? SQLITE_NULL)
  | _, _ => false
  end.

(** What [*pRowid] holds when the callback is left, by return or by
    exception. *)
Definition out_rowid (o : outcome (VirtualTable Index * Z)) : option Z :=
  match o with
  | Returned _ (_, p) | Thrown _ (_, p) => Some p
  | _ => None
  end.

(** The three kinds of constraint [BestIndex] tells apart. *)
Definition knn_constraint (c : sqlite3_index_constraint) : Prop :=
  usable c <> 0 /\ op c = kFunctionConstraintVectorSearchKnn /\
  iColumn c = kColumnIndexVector.

Definition rowid_constraint (c : sqlite3_index_constraint) : Prop :=
  usable c <> 0 /\ iColumn c = -1.

Definition ignored_constraint (c : sqlite3_index_constraint) : Prop :=
  ~ knn_constraint c /\ ~ rowid_constraint c.

(** The same, as the loop body decides it: the [idxNum] and [argvIndex] a
    constraint is given, if any. *)
Definition recognized (c : sqlite3_index_constraint) : option (Z * Z) :=
  if usable c =? 0 then None
  else if (op c =? kFunctionConstraintVectorSearchKnn)
          && (iColumn c =? kColumnIndexVector) then Some (kVector, 1)
  else if iColumn c =? -1 then Some (kRowid, 2)
  else None.

(** The [idxNum] left by the last recognized constraint of [cs]. *)
Definition last_idxNum (cs : list sqlite3_index_constraint) (init : Z) : Z :=
  fold_left
    (fun acc c => match recognized c with Some (idx, _) => idx | None => acc end)
    cs init.

End Statements.

(* ================================================================== *)
(** ** FindFunction, KnnSearch, Create and the host's row loop *)

(** The functions a [pxFunc] can point to. *)
Inductive scalar_function :=
| KnnSearch_function
| KnnParamFunc_function
| host_function (id : nat).

(** [KnnSearch] is a marker with an empty body: the context is left as it
    is. *)
Definition KnnSearch (pCtx : option context_result) (argv : list sqlite3_value)
    : option context_result :=
  pCtx.

(** [pxFunc] and [ppArg] are what [*pxFunc] and [*ppArg] hold on entry
    ([None] is the null pointer); the result carries what they hold on
    exit. *)
Definition FindFunction (nArg : Z) (zName : string) (pxFunc : scalar_function)
    (ppArg : option Z) : Z * (scalar_function * option Z) :=
  if String.eqb zName "knn_search" then
    (kFunctionConstraintVectorSearchKnn, (KnnSearch_function, None))
  else (0, (pxFunc, ppArg)).

(** What [Create] leaves behind: the return code, [*ppVTab], [*pzErr] and the
    schema handed to [sqlite3_declare_vtab], if the call was made. *)
Record created (Index : Type) := {
  create_rc : Z;
  ppVTab : option (VirtualTable Index);
  pzErr : option string;
  declared : option string;
}.
Arguments create_rc {Index} _.
Arguments ppVTab {Index} _.
Arguments pzErr {Index} _.
Arguments declared {Index} _.

Section Create.

Context {Index : Type}.

(** The host: what [sqlite3_vtab_config(db, SQLITE_VTAB_CONSTRAINT_SUPPORT,
    1)] returns and what [sqlite3_declare_vtab(db, sql)] returns. *)
Variable sqlite3_vtab_config : Z.
Variable sqlite3_declare_vtab : string -> Z.

(** [NamedVectorSpace::FromString] (vector_space.h) and
    [IndexOptions::FromString] (index_options.h) are not part of the
    sources, nor is the constructor [VirtualTable(NamedVectorSpace,
    IndexOptions)], which may throw. *)
Variable IndexOptions : Type.
Variable NamedVectorSpace_FromString : string -> StatusOr NamedVectorSpace.
Variable IndexOptions_FromString : string -> StatusOr IndexOptions.
Variable VirtualTable_new : NamedVectorSpace -> IndexOptions -> Exc (VirtualTable Index).

Definition kModuleParamOffset : Z := 3.

(** [sqlite3_mprintf] formats like [sqlite3_vmprintf]. *)
Definition sqlite3_mprintf : string -> list printf_arg -> string := sqlite3_vmprintf.

Definition Create (argv : list string) (ppVTab0 : option (VirtualTable Index))
    (pzErr0 : option string) : option (created Index) :=
  let argc := Z.of_nat (length argv) in
  let rc := sqlite3_vtab_config in
  if negb (rc =? SQLITE_OK) then
    Some {| create_rc := rc; ppVTab := ppVTab0; pzErr := pzErr0; declared := None |}
  else if negb (argc =? 2 + kModuleParamOffset) then
    Some {| create_rc := SQLITE_ERROR; ppVTab := ppVTab0;
            pzErr := Some (sqlite3_mprintf "Expected 3 argument, got %d"
                             [ArgInt (argc - kModuleParamOffset)]);
            declared := None |}
  else
    match argv !! 3%nat, argv !! 4%nat with
    | Some vector_space_str, Some index_options_str =>
      match NamedVectorSpace_FromString vector_space_str with
      | NotOk st =>
        Some {| create_rc := SQLITE_ERROR; ppVTab := ppVTab0;
                pzErr := Some (sqlite3_mprintf "Invalid vector space: %s. Reason: %s"
                                 [ArgStr vector_space_str; ArgStr (message st)]);
                declared := None |}
      | Ok vector_space =>
        match IndexOptions_FromString index_options_str with
        | NotOk st =>
          Some {| create_rc := SQLITE_ERROR; ppVTab := ppVTab0;
                  pzErr := Some (sqlite3_mprintf "Invalid index_options %s. Reason: %s"
                                   [ArgStr index_options_str; ArgStr (message st)]);
                  declared := None |}
        | Ok index_options =>
          let sql := StrFormat "CREATE TABLE X(%s, distance REAL hidden)"
                       [ArgStr (vector_name vector_space)] in
          let rc := sqlite3_declare_vtab sql in
          if negb (rc =? SQLITE_OK) then
            Some {| create_rc := rc; ppVTab := ppVTab0; pzErr := pzErr0;
                    declared := Some sql |}
          else
            match VirtualTable_new vector_space index_options with
            | Value vtab =>
              Some {| create_rc := SQLITE_OK; ppVTab := Some vtab; pzErr := pzErr0;
                      declared := Some sql |}
            | Raise what =>
              Some {| create_rc := SQLITE_ERROR; ppVTab := ppVTab0;
                      pzErr := Some (sqlite3_mprintf "Failed to create virtual table: %s"
                                       [ArgStr what]);
                      declared := Some sql |}
            end
        end
      end
    | _, _ => None
    end.

End Create.

Section Row_loop.

Context {Index : Type} `{!HierarchicalNSW Index} `{!VectorMath}.

(** The position of a cursor lies within its result or at its end. *)
Definition in_bounds (cursor : Cursor) : Prop :=
  (current_row cursor <= length (result cursor))%nat.

(** [n] calls of [Next]. *)
Definition Next_times (n : nat) (cursor : Cursor) : Cursor :=
  Nat.iter n (fun c => (Next c).2) cursor.

(** The host's loop for [SELECT rowid, distance FROM t WHERE ...] over a
    filtered cursor: while [Eof] says no, read [Rowid] and the distance
    column, then call [Next].  The loop stops at the first call that does
    not return [SQLITE_OK]; [fuel] bounds the number of rows read. *)
Fixpoint scan (fuel : nat) (vtab : VirtualTable Index) (cursor : Cursor)
    : list (Z * float) :=
  match fuel with
  | O => []
  | S fuel' =>
    if Eof cursor =? 0 then
      match Rowid cursor 0, Column vtab cursor None kColumnIndexDistance with
      | Returned rc1 rowid, Returned rc2 (Some (ResultDouble d)) =>
        if (rc1 =? SQLITE_OK) && (rc2 =? SQLITE_OK) then
          let '(rc3, cursor') := Next cursor in
          if rc3 =? SQLITE_OK then (rowid, d) :: scan fuel' vtab cursor'
          else [(rowid, d)]
        else []
      | _, _ => []
      end
    else []
  end.

End Row_loop.

(** Parsers and a constructor to create concrete tables with: a space
    literal is accepted when it is ["v"] (a vector column [v] of dimension
    2), an options literal when it is ["2"] (capacity 2). *)
Definition demo_space_parser (s : string) : StatusOr NamedVectorSpace :=
  if String.eqb s "v" then Ok (l2_space 2)
  else NotOk {| message := "unknown space" |}.
Definition demo_options_parser (s : string) : StatusOr nat :=
  if String.eqb s "2" then Ok 2%nat
  else NotOk {| message := "unknown options" |}.
Definition demo_constructor (space : NamedVectorSpace) (cap : nat)
    : Exc (VirtualTable BoundedIndex) :=
  Value (new_table (space_dimension space) cap).
Definition demo_declare (sql : string) : Z := SQLITE_OK.

(* ================================================================== *)
(** * Properties *)

Example sqlite3_vmprintf_rowid :
  sqlite3_vmprintf "rowid %lld out of range" [ArgInt (-1)] = "rowid -1 out of range"%string.
Proof. reflexivity. Qed.

Example sqlite3_vmprintf_dimension :
  sqlite3_vmprintf "has dimension %d, but the table has dimension %d"
    [ArgInt 2; ArgInt 3] = "has dimension 2, but the table has dimension 3"%string.
Proof. reflexivity. Qed.

Example FromBlob_seven_bytes : FromBlob blob_7_bytes = NotOk kDecodeError.
Proof. reflexivity. Qed.

Example FromBlob_eight_bytes :
  FromBlob blob_1_0 =
  Ok {| data := [(x00, x00, x80, x3f); (x00, x00, x00, x00)] |}.
Proof. reflexivity. Qed.

Example Update_first_insert :
  Update (new_table 2 2) (insert_argv (integer_value 1) (blob_value blob_1_0)) 0 =
  Returned SQLITE_OK
    ({| zErrMsg := None; space_ := l2_space 2;
        index_ := {| max_elements := 2;
                     points := [(1, [(x00, x00, x80, x3f); (x00, x00, x00, x00)])] |};
        rowids_ := {[1]} ∪ ∅ |}, 1).
Proof. reflexivity. Qed.

(** ** Fixed-width integers *)

Lemma to_int64_range z : - 2 ^ 63 <= to_int64 z <= INT64_MAX.
Proof.
  unfold to_int64, INT64_MAX.
  pose proof (Z.mod_pos_bound (z + 2 ^ 63) (2 ^ 64) ltac:(lia)). lia.
Qed.

Lemma to_int64_id z : - 2 ^ 63 <= z <= INT64_MAX -> to_int64 z = z.
Proof.
  unfold to_int64, INT64_MAX. intros Hz.
  rewrite Z.mod_small; lia.
Qed.

Lemma sqlite3_value_int64_le_max v : (sqlite3_value_int64 v >? INT64_MAX) = false.
Proof.
  unfold sqlite3_value_int64. pose proof (to_int64_range (value_int64 v)). lia.
Qed.

Lemma static_cast_labeltype_id rowid :
  0 <= rowid <= labeltype_max -> static_cast_labeltype rowid = rowid.
Proof.
  unfold static_cast_labeltype, labeltype_max. intros H.
  apply Z.mod_small. lia.
Qed.

Section Cursor_properties.

Context {Index : Type} `{!HierarchicalNSW Index} `{!VectorMath}.

Lemma Eof_iff cursor :
  Eof cursor = 1 <-> current_row cursor = cend (result cursor).
Proof.
  unfold Eof. destruct (Nat.eqb_spec (current_row cursor) (cend (result cursor))).
  - split; auto.
  - split; [discriminate | contradiction].
Qed.

Lemma Eof_Open (vtab : VirtualTable Index) : Eof (Open vtab).2 = 1.
Proof. reflexivity. Qed.

(** C10: [Column] on a cursor at the end of its result sequence, a freshly
    opened cursor among them, returns [SQLITE_ERROR] for every column
    index [N], and leaves the context as it was: the test comes before
    the dispatch on [N]. *)
Theorem Column_at_eof (vtab : VirtualTable Index) cursor pCtx N :
  cursor = (Open vtab).2 \/ Eof cursor = 1 ->
  Column vtab cursor pCtx N = Returned SQLITE_ERROR pCtx.
Proof.
  intros Heof.
  assert (Hend : current_row cursor = cend (result cursor)).
  { destruct Heof as [-> | Heof]; [reflexivity | by apply Eof_iff]. }
  unfold Column. rewrite Hend, Nat.eqb_refl. reflexivity.
Qed.

End Cursor_properties.

Lemma Column_at_eof_witness :
  Eof (Open (new_table 2 2)).2 = 1 /\
  Column (new_table 2 2) (Open (new_table 2 2)).2 None 7 = Returned SQLITE_ERROR None.
Proof.
  split; [reflexivity |].
  apply (Column_at_eof (new_table 2 2)). right. reflexivity.
Defined.

(** ** Filter *)

Section Filter_properties.

Context {Index : Type} `{!HierarchicalNSW Index} `{!VectorMath}.

Lemma fails_with_SetZErrMsg {S : Type} (vtab : VirtualTable Index) (s : S) fmt args :
  fails_with (Returned SQLITE_ERROR (SetZErrMsg vtab fmt args, s)) vtab s
    (sqlite3_vmprintf fmt args).
Proof. exists (SetZErrMsg vtab fmt args). repeat split. Qed.

(** C7: [Filter] with an [idxNum] other than [kVector] (so also [kRowid],
    and the 0 of an unconstrained scan) returns [SQLITE_ERROR]; the cursor
    it leaves is the cursor it was given, so a cursor without rows has
    none afterwards either. *)
Theorem Filter_other_idxNum (vtab : VirtualTable Index) cursor idxNum argv :
  idxNum <> kVector ->
  fails_with (Filter vtab cursor idxNum argv) vtab cursor
    (sqlite3_vmprintf "Invalid index number: %d" [ArgInt idxNum]) /\
  (result cursor = [] ->
   forall vtab' cursor' rc,
     Filter vtab cursor idxNum argv = Returned rc (vtab', cursor') ->
     result cursor' = []).
Proof.
  intros Hne. unfold Filter.
  destruct (Z.eqb_spec idxNum kVector) as [|_]; [contradiction |].
  split; [apply fails_with_SetZErrMsg |].
  intros Hempty vtab' cursor' rc Heq. injection Heq as _ _ <-. exact Hempty.
Qed.

(** C2, as the code has it: with [idxNum = kVector] and an [argv[0]] that
    carries no pointer tagged ["vector_search_knn_param"], [Filter] returns
    [SQLITE_ERROR] with the message "knn_param() should be used for the 2nd
    param of knn_search", and the cursor (so its rows) is left as it was. *)
Theorem Filter_untagged_param (vtab : VirtualTable Index) cursor argv argv0 :
  argv !! 0%nat = Some argv0 ->
  sqlite3_value_pointer argv0 "vector_search_knn_param" = None ->
  fails_with (Filter vtab cursor kVector argv) vtab cursor
    "knn_param() should be used for the 2nd param of knn_search".
Proof.
  intros H0 Hptr. unfold Filter. rewrite Z.eqb_refl, H0.
  unfold kKnnParamType. rewrite Hptr.
  exact (fails_with_SetZErrMsg vtab cursor
           "knn_param() should be used for the 2nd param of knn_search" []).
Qed.

(** The dimension test of [Filter]: with [idxNum = kVector] and a well-tagged
    parameter, a query vector of another dimension than the table's makes
    [Filter] return [SQLITE_ERROR] with a message that starts with
    "Dimension mismatch" and leave the cursor as it was (no search result
    is stored); with equal dimensions and a cursor that holds no earlier
    result, [Filter] stores the result of the k-NN search for the (possibly
    normalized) query and sets the position to 0. *)
Theorem Filter_dimension_check (vtab : VirtualTable Index) cursor argv argv0 param :
  argv !! 0%nat = Some argv0 ->
  sqlite3_value_pointer argv0 "vector_search_knn_param" = Some param ->
  let query := param_query_vector param in
  let stored := if normalize (space_ vtab) then Normalize query else query in
  (dim query <> dimension vtab ->
   exists msg,
     fails_with (Filter vtab cursor kVector argv) vtab cursor msg /\
     String.prefix "Dimension mismatch" msg = true) /\
  (dim query = dimension vtab -> result cursor = [] ->
   Filter vtab cursor kVector argv =
   Returned SQLITE_OK
     (vtab,
      {| result := searchKnnCloserFirst (index_ vtab) (data stored) (k param);
         current_row := 0; query_vector := stored |})).
Proof.
  intros H0 Hptr query stored. unfold Filter.
  rewrite Z.eqb_refl, H0. unfold kKnnParamType. rewrite Hptr.
  fold query. split.
  - intros Hdim.
    destruct (Nat.eqb_spec (dim query) (dimension vtab)) as [|_]; [contradiction |].
    eexists. split; [apply fails_with_SetZErrMsg | reflexivity].
  - intros Hdim Hempty. rewrite Hdim, Nat.eqb_refl, Hempty. reflexivity.
Qed.

End Filter_properties.

(** What [knn_param] returns is accepted by the tag test of [Filter]. *)
Lemma sqlite3_value_pointer_of_knn_param p :
  sqlite3_value_pointer (value_of_result (ResultPointer p kKnnParamType))
    kKnnParamType = Some p.
Proof. reflexivity. Qed.

Example KnnParamFunc_query_2d :
  KnnParamFunc [blob_value blob_1_0; integer_value 1] =
  Some (ResultPointer query_2d "vector_search_knn_param").
Proof. reflexivity. Qed.

Lemma Filter_other_idxNum_witness :
  kRowid <> kVector /\
  fails_with (Filter one_row_table Cursor_new kRowid [integer_value 1])
    one_row_table Cursor_new "Invalid index number: 2" /\
  fails_with (Filter one_row_table Cursor_new 0 [])
    one_row_table Cursor_new "Invalid index number: 0".
Proof.
  split; [discriminate |]. split.
  - apply (Filter_other_idxNum one_row_table Cursor_new kRowid [integer_value 1]).
    discriminate.
  - apply (Filter_other_idxNum one_row_table Cursor_new 0 []). discriminate.
Defined.

(** C2, as the spec words it, fails: for [knn_search(v, 42)] the message is
    not "knn_param() must be used as the 2nd argument of knn_search". *)
Lemma Filter_untagged_param_spec_message_fails :
  sqlite3_value_pointer (integer_value 42) "vector_search_knn_param" = None /\
  ~ fails_with (Filter one_row_table Cursor_new kVector [integer_value 42])
      one_row_table Cursor_new
      "knn_param() must be used as the 2nd argument of knn_search".
Proof.
  split; [reflexivity |].
  intros (vtab' & Heq & Hmsg & _).
  injection Heq as <-. discriminate Hmsg.
Qed.

Lemma Filter_untagged_param_witness :
  [integer_value 42] !! 0%nat = Some (integer_value 42) /\
  sqlite3_value_pointer (integer_value 42) "vector_search_knn_param" = None /\
  fails_with (Filter one_row_table Cursor_new kVector [integer_value 42])
    one_row_table Cursor_new
    "knn_param() should be used for the 2nd param of knn_search".
Proof.
  split; [reflexivity |]. split; [reflexivity |].
  apply (Filter_untagged_param one_row_table Cursor_new
           [integer_value 42] (integer_value 42)); reflexivity.
Defined.

(** C8: with a query of the table's dimension [Filter] is to run the search
    and set the position to 0.  On a cursor that already holds the rows of
    an earlier search it does not: nothing in the adapter empties
    [cursor->result] before the host calls [Filter] on the cursor again, and
    the second call trips the adapter's own assertion
    [cursor->result.empty()] instead of setting the position to 0. *)
Lemma Filter_second_search_fails :
  let argv := [pointer_value query_2d "vector_search_knn_param"] in
  let cursor1 :=
    {| result := [(zero_distance, 1)]; current_row := 0;
       query_vector := param_query_vector query_2d |} in
  dim (param_query_vector query_2d) = dimension one_row_table /\
  Filter one_row_table Cursor_new kVector argv =
    Returned SQLITE_OK (one_row_table, cursor1) /\
  Filter one_row_table cursor1 kVector argv = AssertionFailed.
Proof. repeat split. Qed.

Lemma Filter_dimension_check_witness :
  (exists msg,
     fails_with
       (Filter one_row_table Cursor_new kVector
          [pointer_value query_1d "vector_search_knn_param"])
       one_row_table Cursor_new msg /\
     String.prefix "Dimension mismatch" msg = true) /\
  Filter one_row_table Cursor_new kVector
    [pointer_value query_2d "vector_search_knn_param"] =
  Returned SQLITE_OK
    (one_row_table,
     {| result := [(zero_distance, 1)]; current_row := 0;
        query_vector := param_query_vector query_2d |}).
Proof.
  split.
  - apply (proj1 (Filter_dimension_check one_row_table Cursor_new
                    [pointer_value query_1d "vector_search_knn_param"]
                    (pointer_value query_1d "vector_search_knn_param") query_1d
                    eq_refl eq_refl)).
    vm_compute. lia.
  - exact (proj2 (Filter_dimension_check one_row_table Cursor_new
                    [pointer_value query_2d "vector_search_knn_param"]
                    (pointer_value query_2d "vector_search_knn_param") query_2d
                    eq_refl eq_refl) eq_refl eq_refl).
Defined.

(** ** BestIndex *)

Section BestIndex_properties.

Context {Index : Type} `{!HierarchicalNSW Index} `{!VectorMath}.

Lemma recognized_knn c : knn_constraint c -> recognized c = Some (kVector, 1).
Proof.
  intros (Hu & Hop & Hcol). unfold recognized.
  destruct (Z.eqb_spec (usable c) 0); [contradiction |].
  rewrite Hop, Hcol, !Z.eqb_refl. reflexivity.
Qed.

Lemma recognized_rowid c : rowid_constraint c -> recognized c = Some (kRowid, 2).
Proof.
  intros (Hu & Hcol). unfold recognized.
  destruct (Z.eqb_spec (usable c) 0); [contradiction |].
  rewrite Hcol. rewrite andb_false_r. reflexivity.
Qed.

Lemma recognized_ignored c : ignored_constraint c -> recognized c = None.
Proof.
  intros (Hknn & Hrow). unfold recognized.
  destruct (Z.eqb_spec (usable c) 0) as [|Hu]; [reflexivity |].
  destruct (Z.eqb_spec (op c) kFunctionConstraintVectorSearchKnn) as [Hop|];
    destruct (Z.eqb_spec (iColumn c) kColumnIndexVector) as [Hcol|]; cbn;
    try (exfalso; apply Hknn; by repeat split);
    (destruct (Z.eqb_spec (iColumn c) (-1)) as [Hm|]; [| reflexivity];
     exfalso; apply Hrow; by split).
Qed.

Lemma BestIndex_body_recognized i c info :
  BestIndex_body i c info =
  match recognized c with
  | Some (idx, argv_index) => set_usage info i idx argv_index
  | None => info
  end.
Proof.
  unfold BestIndex_body, recognized.
  destruct (usable c =? 0); [reflexivity |].
  destruct ((op c =? kFunctionConstraintVectorSearchKnn)
            && (iColumn c =? kColumnIndexVector)); [reflexivity |].
  destruct (iColumn c =? -1); reflexivity.
Qed.

Lemma BestIndex_loop_spec rest : forall i info,
  let info' := BestIndex_loop rest i info in
  aConstraint info' = aConstraint info /\
  length (aConstraintUsage info') = length (aConstraintUsage info) /\
  idxNum info' = last_idxNum rest (idxNum info) /\
  (forall j, (j < i)%nat ->
     aConstraintUsage info' !! j = aConstraintUsage info !! j) /\
  (forall j c, rest !! j = Some c ->
     (i + j < length (aConstraintUsage info))%nat ->
     aConstraintUsage info' !! (i + j)%nat =
     match recognized c with
     | Some (_, argv_index) => Some {| argvIndex := argv_index; omit := 1 |}
     | None => aConstraintUsage info !! (i + j)%nat
     end).
Proof.
  induction rest as [|c rest IH]; intros i info; cbn zeta.
  - cbn. repeat split; auto. intros j c Hj. discriminate Hj.
  - cbn [BestIndex_loop].
    destruct (IH (S i) (BestIndex_body i c info))
      as (Hcons & Hlen & Hidx & Hbefore & Hat).
    rewrite BestIndex_body_recognized in *.
    assert (Hlen1 :
      length (aConstraintUsage
                match recognized c with
                | Some (idx, argv_index) => set_usage info i idx argv_index
                | None => info
                end) = length (aConstraintUsage info)).
    { destruct (recognized c) as [[idx ai]|]; [| reflexivity].
      cbn. apply length_insert. }
    split; [| split; [| split; [| split]]].
    + rewrite Hcons. destruct (recognized c) as [[idx ai]|]; reflexivity.
    + rewrite Hlen. exact Hlen1.
    + rewrite Hidx. unfold last_idxNum. cbn [fold_left].
      destruct (recognized c) as [[idx ai]|]; reflexivity.
    + intros j Hj. rewrite Hbefore by lia.
      destruct (recognized c) as [[idx ai]|]; [| reflexivity].
      cbn. apply list_lookup_insert_ne. lia.
    + intros [|j] c' Hj Hin.
      * cbn in Hj. injection Hj as <-. rewrite Nat.add_0_r in *.
        rewrite Hbefore by lia.
        destruct (recognized c) as [[idx ai]|]; [| reflexivity].
        cbn. by apply list_lookup_insert_eq.
      * cbn in Hj. replace (i + S j)%nat with (S i + j)%nat by lia.
        rewrite (Hat j c' Hj) by lia.
        destruct (recognized c') as [[idx' ai']|]; [reflexivity |].
        destruct (recognized c) as [[idx ai]|]; [| reflexivity].
        cbn. apply list_lookup_insert_ne. lia.
Qed.

Lemma last_idxNum_ignored cs : forall init,
  (forall i c, cs !! i = Some c -> recognized c = None) ->
  last_idxNum cs init = init.
Proof.
  induction cs as [|c cs IH]; intros init Hall; [reflexivity |].
  unfold last_idxNum. cbn [fold_left].
  rewrite (Hall 0%nat c eq_refl).
  apply IH. intros i c' Hi. exact (Hall (S i) c' Hi).
Qed.

Lemma last_idxNum_last cs : forall init i c idx argv_index,
  cs !! i = Some c ->
  recognized c = Some (idx, argv_index) ->
  (forall j c', (i < j)%nat -> cs !! j = Some c' -> recognized c' = None) ->
  last_idxNum cs init = idx.
Proof.
  induction cs as [|c0 cs IH]; intros init i c idx ai Hi Hrec Hlater;
    [discriminate Hi |].
  unfold last_idxNum. cbn [fold_left]. destruct i as [|i].
  - cbn in Hi. injection Hi as ->. rewrite Hrec.
    apply last_idxNum_ignored.
    intros j c' Hj. apply (Hlater (S j) c'); [lia | exact Hj].
  - cbn in Hi. apply (IH _ i c idx ai Hi Hrec).
    intros j c' Hlt Hj. apply (Hlater (S j) c'); [lia | exact Hj].
Qed.

(** C6: [BestIndex] returns [SQLITE_OK] and leaves the constraints as they
    were; a usable constraint with the knn function operator on column 0 is
    given [argvIndex = 1] and [omit], a usable constraint on column -1
    [argvIndex = 2] and [omit], every other constraint keeps its usage
    entry; [idxNum] is [kVector] or [kRowid] after the last recognized
    constraint of the list, and is untouched when there is none. *)
Theorem BestIndex_constraints (vtab : VirtualTable Index) info :
  length (aConstraintUsage info) = nConstraint info ->
  let out := BestIndex vtab info in
  out.1 = SQLITE_OK /\
  aConstraint out.2 = aConstraint info /\
  (forall i c, aConstraint info !! i = Some c ->
     (knn_constraint c ->
      aConstraintUsage out.2 !! i = Some {| argvIndex := 1; omit := 1 |}) /\
     (rowid_constraint c ->
      aConstraintUsage out.2 !! i = Some {| argvIndex := 2; omit := 1 |}) /\
     (ignored_constraint c ->
      aConstraintUsage out.2 !! i = aConstraintUsage info !! i)) /\
  (forall i c, aConstraint info !! i = Some c ->
     (forall j c', (i < j)%nat -> aConstraint info !! j = Some c' ->
        ignored_constraint c') ->
     (knn_constraint c -> idxNum out.2 = kVector) /\
     (rowid_constraint c -> idxNum out.2 = kRowid)) /\
  ((forall i c, aConstraint info !! i = Some c -> ignored_constraint c) ->
   idxNum out.2 = idxNum info).
Proof.
  intros Hlen out. unfold out, BestIndex. cbn [fst snd].
  destruct (BestIndex_loop_spec (aConstraint info) 0%nat info)
    as (Hcons & _ & Hidx & _ & Hat).
  split; [reflexivity |]. split; [exact Hcons |].
  split; [| split].
  - intros i c Hi.
    assert (Hin : (0 + i < length (aConstraintUsage info))%nat).
    { rewrite Hlen. unfold nConstraint. cbn. by eapply lookup_lt_Some. }
    specialize (Hat i c Hi Hin). cbn [Nat.add] in Hat.
    split; [| split]; intros Hc; rewrite Hat.
    + by rewrite (recognized_knn c Hc).
    + by rewrite (recognized_rowid c Hc).
    + by rewrite (recognized_ignored c Hc).
  - intros i c Hi Hlater. rewrite Hidx.
    assert (Hnone : forall j c', (i < j)%nat -> aConstraint info !! j = Some c' ->
                      recognized c' = None).
    { intros j c' Hlt Hj. apply recognized_ignored. by apply (Hlater j c'). }
    split; intros Hc.
    + exact (last_idxNum_last _ _ i c kVector 1 Hi (recognized_knn c Hc) Hnone).
    + exact (last_idxNum_last _ _ i c kRowid 2 Hi (recognized_rowid c Hc) Hnone).
  - intros Hall. rewrite Hidx. apply last_idxNum_ignored.
    intros i c Hi. apply recognized_ignored. by apply (Hall i c).
Qed.

End BestIndex_properties.

Example BestIndex_knn_then_rowid :
  BestIndex (new_table 2 2) knn_then_rowid =
  (SQLITE_OK,
   {| aConstraint := aConstraint knn_then_rowid;
      aConstraintUsage :=
        [ {| argvIndex := 1; omit := 1 |};
          {| argvIndex := 0; omit := 0 |};
          {| argvIndex := 2; omit := 1 |} ];
      idxNum := kRowid |}).
Proof. reflexivity. Qed.

Lemma BestIndex_constraints_witness :
  length (aConstraintUsage knn_then_rowid) = nConstraint knn_then_rowid /\
  aConstraintUsage (BestIndex (new_table 2 2) knn_then_rowid).2 !! 0%nat =
    Some {| argvIndex := 1; omit := 1 |} /\
  idxNum (BestIndex (new_table 2 2) knn_then_rowid).2 = kRowid.
Proof.
  split; [reflexivity |].
  destruct (BestIndex_constraints (new_table 2 2) knn_then_rowid eq_refl)
    as (_ & _ & Husage & Hlast & _).
  split.
  - apply (Husage 0%nat {| iColumn := 0; op := 150; usable := 1 |} eq_refl).
    repeat split. discriminate.
  - apply (Hlast 2%nat {| iColumn := -1; op := 2; usable := 1 |} eq_refl).
    + intros j c' Hlt Hj. do 3 (destruct j as [|j]; [lia |]). discriminate Hj.
    + split; [discriminate | reflexivity].
Defined.

(** ** Update *)

Section Update_properties.

Context {Index : Type} `{!HierarchicalNSW Index} `{!VectorMath}.

Lemma insert_signature_inv argv :
  insert_signature argv = true ->
  exists argv0 argv1,
    (1 <? Z.of_nat (length argv)) = true /\
    argv !! 0%nat = Some argv0 /\ argv !! 1%nat = Some argv1 /\
    (sqlite3_value_type argv0 =? SQLITE_NULL) = true /\
    (sqlite3_value_type argv1 =? SQLITE_NULL) = false.
Proof.
  unfold insert_signature. intros Hsig.
  apply andb_prop in Hsig as [Hargc Hsig].
  destruct (argv !! 0%nat) as [argv0|]; [| discriminate].
  destruct (argv !! 1%nat) as [argv1|]; [| discriminate].
  apply andb_prop in Hsig as [H0 H1]. apply negb_true_iff in H1.
  exists argv0, argv1. auto.
Qed.

Lemma to_int64_sqlite3_value_int64 v :
  to_int64 (sqlite3_value_int64 v) = sqlite3_value_int64 v.
Proof.
  apply to_int64_id. unfold sqlite3_value_int64. apply to_int64_range.
Qed.

Lemma rowid_message rowid :
  sqlite3_vmprintf "rowid %lld out of range" [ArgInt rowid] =
  ("rowid " +:+ pretty rowid +:+ " out of range")%string.
Proof. reflexivity. Qed.

(** Enter the insert branch of [Update]: [Hsig] is the insert signature and
    [H1] names [argv[1]]. *)
Ltac enter_insert Hsig H1 :=
  let a0 := fresh "argv0" in
  let a1 := fresh "argv1" in
  let Hargc := fresh "Hargc" in
  let H0 := fresh "Hargv0" in
  let H1' := fresh "Hargv1" in
  let Ht0 := fresh "Htype0" in
  let Ht1 := fresh "Htype1" in
  destruct (insert_signature_inv _ Hsig)
    as (a0 & a1 & Hargc & H0 & H1' & Ht0 & Ht1);
  rewrite H1 in H1'; injection H1' as <-;
  unfold Update; rewrite Hargc, H0, H1, Ht0, Ht1;
  rewrite sqlite3_value_int64_le_max, to_int64_sqlite3_value_int64;
  cbn [orb].

(** C3, as the code has it: a call that does not have the insert signature
    returns [SQLITE_ERROR] and touches neither the index, the known-row set
    nor [*pRowid]; the message is "rowid must be specified during insertion"
    for an insert whose rowid is NULL and "Operation not supported for now"
    for every other such call (DELETE, UPDATE, [argc <= 1]). *)
Theorem Update_not_insert (vtab : VirtualTable Index) argv pRowid :
  insert_signature argv = false ->
  fails_with (Update vtab argv pRowid) vtab pRowid
    (if insert_without_rowid argv then "rowid must be specified during insertion"
     else "Operation not supported for now").
Proof.
  unfold insert_signature, insert_without_rowid, Update. intros Hsig.
  destruct (1 <? Z.of_nat (length argv)) eqn:Hargc; cbn [andb] in *.
  - destruct argv as [|argv0 [|argv1 rest]]; try discriminate Hargc.
    cbn [lookup list_lookup] in *.
    destruct (sqlite3_value_type argv0 =? SQLITE_NULL); cbn [andb] in *.
    + apply negb_false_iff in Hsig. rewrite Hsig.
      exact (fails_with_SetZErrMsg vtab pRowid
               "rowid must be specified during insertion" []).
    + exact (fails_with_SetZErrMsg vtab pRowid
               "Operation not supported for now" []).
  - exact (fails_with_SetZErrMsg vtab pRowid "Operation not supported for now" []).
Qed.

(** What [Update] does with an insert whose rowid passed the range check,
    whose vector is a blob that decodes, and whose dimension is the
    table's: the point goes to the index, and an exception of [addPoint]
    leaves the callback. *)
Lemma Update_valid_insert (vtab : VirtualTable Index) argv argv1 argv2 vector pRowid :
  insert_signature argv = true ->
  argv !! 1%nat = Some argv1 -> argv !! 2%nat = Some argv2 ->
  0 <= sqlite3_value_int64 argv1 ->
  sqlite3_value_type argv2 = SQLITE_BLOB ->
  FromBlob (sqlite3_value_blob argv2) = Ok vector ->
  dim vector = dimension vtab ->
  Update vtab argv pRowid =
  let rowid := sqlite3_value_int64 argv1 in
  let point :=
    if normalize (space_ vtab) then data (Normalize vector) else data vector in
  match addPoint (index_ vtab) point (static_cast_labeltype rowid) with
  | Raise what => Thrown what (vtab, rowid)
  | Value index' => Returned SQLITE_OK (add_row vtab index' rowid, rowid)
  end.
Proof.
  intros Hsig H1 H2 Hrange Hblob Hdecode Hdim.
  enter_insert Hsig H1.
  destruct (Z.ltb_spec (sqlite3_value_int64 argv1) 0) as [|_]; [lia |].
  rewrite H2, Hblob, Z.eqb_refl. cbn [negb].
  rewrite Hdecode, Hdim, Nat.eqb_refl. reflexivity.
Qed.

(** Whatever the index does with the point, such an insert is never
    answered with [SQLITE_ERROR]: [Update] has no way to report a failure of
    [addPoint]. *)
Lemma Update_valid_insert_no_error (vtab : VirtualTable Index) argv argv1 argv2
    vector pRowid :
  insert_signature argv = true ->
  argv !! 1%nat = Some argv1 -> argv !! 2%nat = Some argv2 ->
  0 <= sqlite3_value_int64 argv1 ->
  sqlite3_value_type argv2 = SQLITE_BLOB ->
  FromBlob (sqlite3_value_blob argv2) = Ok vector ->
  dim vector = dimension vtab ->
  forall vtab' p, Update vtab argv pRowid <> Returned SQLITE_ERROR (vtab', p).
Proof.
  intros Hsig H1 H2 Hrange Hblob Hdecode Hdim vtab' p.
  rewrite (Update_valid_insert vtab argv argv1 argv2 vector pRowid) by assumption.
  cbn zeta. destruct (addPoint _ _ _); discriminate.
Qed.

(** C4, as the code has it: an insert whose vector argument is a blob of a
    length that is not a positive multiple of 4 returns [SQLITE_ERROR] with
    an error message and leaves the index and the known-row set as they
    were; when the rowid passes the range check, the message is the decode
    error "Failed to perform insertion due to: ..." (and [*pRowid] holds the
    rowid). *)
Theorem Update_bad_blob (vtab : VirtualTable Index) argv argv1 argv2 pRowid :
  insert_signature argv = true ->
  argv !! 1%nat = Some argv1 -> argv !! 2%nat = Some argv2 ->
  sqlite3_value_type argv2 = SQLITE_BLOB ->
  ~ (0 < Z.of_nat (sqlite3_value_bytes argv2) /\
     Z.of_nat (sqlite3_value_bytes argv2) mod 4 = 0) ->
  (exists msg p, fails_with (Update vtab argv pRowid) vtab p msg) /\
  (0 <= sqlite3_value_int64 argv1 ->
   fails_with (Update vtab argv pRowid) vtab (sqlite3_value_int64 argv1)
     (sqlite3_vmprintf "Failed to perform insertion due to: %s"
        [ArgStr (message kDecodeError)])).
Proof.
  intros Hsig H1 H2 Hblob Hlen.
  assert (Hdecode : FromBlob (sqlite3_value_blob argv2) = NotOk kDecodeError).
  { unfold FromBlob, sqlite3_value_bytes, sqlite3_value_blob in *.
    destruct (Z.ltb_spec 0 (Z.of_nat (length (value_blob argv2)))); cbn [andb];
      [| reflexivity].
    destruct (Z.eqb_spec (Z.of_nat (length (value_blob argv2)) mod 4) 0);
      [| reflexivity].
    exfalso. apply Hlen. by split. }
  enter_insert Hsig H1.
  destruct (Z.ltb_spec (sqlite3_value_int64 argv1) 0) as [Hneg|Hpos].
  - split; [| lia]. eexists _, _. apply fails_with_SetZErrMsg.
  - rewrite H2, Hblob, Z.eqb_refl. cbn [negb]. rewrite Hdecode.
    split; [eexists _, _ | intros _]; apply fails_with_SetZErrMsg.
Qed.

(** C5: on an insert, a rowid that is negative or above the label type's
    maximum is refused by the range check: [Update] returns [SQLITE_ERROR]
    with "rowid ... out of range", and the index, the known-row set and
    [*pRowid] are untouched.  A rowid between 0 and the label type's maximum
    passes: it is the label the index would be given (the conversion to
    [labeltype] keeps its value), [*pRowid] is written when [argv[2]] is
    there, and no out-of-range error is reported. *)
Theorem Update_rowid_range_check (vtab : VirtualTable Index) argv argv1 pRowid :
  insert_signature argv = true ->
  argv !! 1%nat = Some argv1 ->
  let rowid := sqlite3_value_int64 argv1 in
  (rowid < 0 \/ labeltype_max < rowid ->
   fails_with (Update vtab argv pRowid) vtab pRowid
     (sqlite3_vmprintf "rowid %lld out of range" [ArgInt rowid])) /\
  (0 <= rowid <= labeltype_max ->
   static_cast_labeltype rowid = rowid /\
   (forall argv2, argv !! 2%nat = Some argv2 ->
      out_rowid (Update vtab argv pRowid) = Some rowid) /\
   (forall vtab' p,
      Update vtab argv pRowid = Returned SQLITE_ERROR (vtab', p) ->
      zErrMsg vtab' <>
      Some (sqlite3_vmprintf "rowid %lld out of range" [ArgInt rowid]))).
Proof.
  intros Hsig H1 rowid.
  pose proof (to_int64_range (value_int64 argv1)) as Hint64.
  fold (sqlite3_value_int64 argv1) in Hint64. fold rowid in Hint64.
  split.
  - intros Hout.
    assert (Hneg : rowid < 0).
    { destruct Hout as [|Hbig]; [assumption |].
      unfold labeltype_max, INT64_MAX in *. lia. }
    enter_insert Hsig H1. fold rowid.
    destruct (Z.ltb_spec rowid 0) as [_|]; [| lia].
    apply fails_with_SetZErrMsg.
  - intros Hin. split; [by apply static_cast_labeltype_id |].
    enter_insert Hsig H1. fold rowid.
    destruct (Z.ltb_spec rowid 0) as [|_]; [lia |].
    rewrite rowid_message.
    split.
    + intros argv2 ->.
      destruct (negb (sqlite3_value_type argv2 =? SQLITE_BLOB)); [reflexivity |].
      destruct (FromBlob (sqlite3_value_blob argv2)) as [vector|st];
        [| reflexivity].
      destruct (negb (dim vector =? dimension vtab)%nat); [reflexivity |].
      destruct (addPoint _ _ _); reflexivity.
    + intros vtab' p Heq Hmsg.
      destruct (argv !! 2%nat) as [argv2|]; [| discriminate].
      destruct (negb (sqlite3_value_type argv2 =? SQLITE_BLOB)).
      { injection Heq as <- _. discriminate Hmsg. }
      destruct (FromBlob (sqlite3_value_blob argv2)) as [vector|st].
      * destruct (negb (dim vector =? dimension vtab)%nat).
        { injection Heq as <- _. discriminate Hmsg. }
        destruct (addPoint _ _ _); discriminate Heq.
      * injection Heq as <- _. discriminate Hmsg.
Qed.

(** C9: on an insert whose rowid passed the range check, [*pRowid] holds that
    rowid when [Update] is left, however it is left; so also when the vector
    argument is then refused (not a blob, a blob that does not decode, a
    vector of another dimension): the error return carries the written
    rowid, whatever [*pRowid] held before. *)
Theorem Update_out_rowid_written (vtab : VirtualTable Index) argv argv1 argv2 pRowid :
  insert_signature argv = true ->
  argv !! 1%nat = Some argv1 -> argv !! 2%nat = Some argv2 ->
  0 <= sqlite3_value_int64 argv1 ->
  out_rowid (Update vtab argv pRowid) = Some (sqlite3_value_int64 argv1) /\
  (sqlite3_value_type argv2 <> SQLITE_BLOB \/
   ok (FromBlob (sqlite3_value_blob argv2)) = false \/
   (exists vector, FromBlob (sqlite3_value_blob argv2) = Ok vector /\
                   dim vector <> dimension vtab) ->
   exists msg,
     fails_with (Update vtab argv pRowid) vtab (sqlite3_value_int64 argv1) msg).
Proof.
  intros Hsig H1 H2 Hrange.
  enter_insert Hsig H1.
  destruct (Z.ltb_spec (sqlite3_value_int64 argv1) 0) as [|_]; [lia |].
  rewrite H2.
  destruct (Z.eqb_spec (sqlite3_value_type argv2) SQLITE_BLOB) as [Hblob|Hblob];
    cbn [negb].
  - destruct (FromBlob (sqlite3_value_blob argv2)) as [vector|st] eqn:Hdecode.
    + destruct (Nat.eqb_spec (dim vector) (dimension vtab)) as [Hdim|Hdim];
        cbn [negb].
      * split; [destruct (addPoint _ _ _); reflexivity |].
        intros [Hno | [Hno | (v & Hv & Hno)]];
          [contradiction | discriminate Hno |].
        injection Hv as <-. contradiction.
      * split; [reflexivity |]. intros _. eexists. apply fails_with_SetZErrMsg.
    + split; [reflexivity |]. intros _. eexists. apply fails_with_SetZErrMsg.
  - split; [reflexivity |]. intros _. eexists. apply fails_with_SetZErrMsg.
Qed.

End Update_properties.

(** C3, as the spec words it, fails: an insert whose rowid is NULL is
    refused with another message than "Operation not supported", and so is a
    DELETE ([argc = 1]). *)
Lemma Update_not_insert_spec_message_fails :
  insert_signature (insert_argv null_value (blob_value blob_1_0)) = false /\
  ~ fails_with
      (Update one_row_table (insert_argv null_value (blob_value blob_1_0)) 0)
      one_row_table 0 "Operation not supported" /\
  insert_signature [integer_value 1] = false /\
  ~ fails_with (Update one_row_table [integer_value 1] 0)
      one_row_table 0 "Operation not supported".
Proof.
  split; [reflexivity |]. split; [| split; [reflexivity |]];
    intros (vtab' & Heq & Hmsg & _); injection Heq as <-; discriminate Hmsg.
Qed.

Lemma Update_not_insert_witness :
  insert_signature (insert_argv null_value (blob_value blob_1_0)) = false /\
  fails_with
    (Update one_row_table (insert_argv null_value (blob_value blob_1_0)) 0)
    one_row_table 0 "rowid must be specified during insertion" /\
  insert_signature [integer_value 1] = false /\
  fails_with (Update one_row_table [integer_value 1] 0)
    one_row_table 0 "Operation not supported for now".
Proof.
  split; [reflexivity |]. split; [| split; [reflexivity |]].
  - exact (Update_not_insert one_row_table
             (insert_argv null_value (blob_value blob_1_0)) 0 eq_refl).
  - exact (Update_not_insert one_row_table [integer_value 1] 0 eq_refl).
Defined.

(** C4, as the spec words it, fails: with a negative rowid, the insert of a
    7-byte blob is refused by the range check, not by the decoder. *)
Lemma Update_bad_blob_negative_rowid :
  let argv := insert_argv (integer_value (-1)) (blob_value blob_7_bytes) in
  insert_signature argv = true /\
  sqlite3_value_type (blob_value blob_7_bytes) = SQLITE_BLOB /\
  sqlite3_value_bytes (blob_value blob_7_bytes) = 7%nat /\
  fails_with (Update one_row_table argv 0) one_row_table 0
    "rowid -1 out of range" /\
  ~ (exists st p,
       fails_with (Update one_row_table argv 0) one_row_table p
         (sqlite3_vmprintf "Failed to perform insertion due to: %s"
            [ArgStr (message st)])).
Proof.
  cbn zeta. split; [reflexivity |]. split; [reflexivity |].
  split; [reflexivity |]. split.
  - eexists. repeat split.
  - intros (st & p & vtab' & Heq & Hmsg & _).
    injection Heq as <- _. discriminate Hmsg.
Qed.

Lemma Update_bad_blob_witness :
  let argv := insert_argv (integer_value 3) (blob_value blob_7_bytes) in
  insert_signature argv = true /\
  ~ (0 < Z.of_nat (sqlite3_value_bytes (blob_value blob_7_bytes)) /\
     Z.of_nat (sqlite3_value_bytes (blob_value blob_7_bytes)) mod 4 = 0) /\
  fails_with (Update one_row_table argv 0) one_row_table 3
    "Failed to perform insertion due to: DecodeError".
Proof.
  cbn zeta.
  assert (Hlen : ~ (0 < Z.of_nat (sqlite3_value_bytes (blob_value blob_7_bytes)) /\
     Z.of_nat (sqlite3_value_bytes (blob_value blob_7_bytes)) mod 4 = 0)).
  { vm_compute. intros [_ H]. discriminate H. }
  split; [reflexivity |]. split; [exact Hlen |].
  apply (proj2 (Update_bad_blob one_row_table
                  (insert_argv (integer_value 3) (blob_value blob_7_bytes))
                  (integer_value 3) (blob_value blob_7_bytes) 0
                  eq_refl eq_refl eq_refl eq_refl Hlen)).
  vm_compute. discriminate.
Defined.

Lemma Update_rowid_range_check_witness :
  fails_with
    (Update one_row_table (insert_argv (integer_value (-1)) (blob_value blob_0_1)) 0)
    one_row_table 0 "rowid -1 out of range" /\
  out_rowid
    (Update one_row_table (insert_argv (integer_value 2) (blob_value blob_0_1)) 0)
  = Some 2.
Proof.
  split.
  - apply (proj1 (Update_rowid_range_check one_row_table
                    (insert_argv (integer_value (-1)) (blob_value blob_0_1))
                    (integer_value (-1)) 0 eq_refl eq_refl)).
    left. vm_compute. reflexivity.
  - destruct (proj2 (Update_rowid_range_check one_row_table
                       (insert_argv (integer_value 2) (blob_value blob_0_1))
                       (integer_value 2) 0 eq_refl eq_refl)) as (_ & Hout & _).
    + vm_compute. split; discriminate.
    + exact (Hout (blob_value blob_0_1) eq_refl).
Defined.

Lemma Update_out_rowid_written_witness :
  let argv := insert_argv (integer_value 3) (blob_value blob_7_bytes) in
  0 <= sqlite3_value_int64 (integer_value 3) /\
  ok (FromBlob (sqlite3_value_blob (blob_value blob_7_bytes))) = false /\
  out_rowid (Update one_row_table argv 0) = Some 3 /\
  exists msg, fails_with (Update one_row_table argv 0) one_row_table 3 msg.
Proof.
  cbn zeta.
  assert (Hrange : 0 <= sqlite3_value_int64 (integer_value 3)).
  { vm_compute. discriminate. }
  destruct (Update_out_rowid_written one_row_table
              (insert_argv (integer_value 3) (blob_value blob_7_bytes))
              (integer_value 3) (blob_value blob_7_bytes) 0
              eq_refl eq_refl eq_refl Hrange) as [Hout Hfail].
  split; [exact Hrange |]. split; [reflexivity |]. split; [exact Hout |].
  apply Hfail. right. left. reflexivity.
Defined.

(** C1: a table of capacity 2 takes the rows 1 and 2; the insert of row 3, a
    fresh rowid with a blob of the table's dimension, makes [addPoint]
    throw, and [Update], which has no handler, is left by that exception: no
    [SQLITE_ERROR] is returned and no error message is set.  The index and
    the known-row set are those of before the call; [*pRowid] is written. *)
Theorem Update_at_capacity_throws :
  exists t1 t2,
    Update (new_table 2 2)
      (insert_argv (integer_value 1) (blob_value blob_1_0)) 0
    = Returned SQLITE_OK (t1, 1) /\
    Update t1 (insert_argv (integer_value 2) (blob_value blob_0_1)) 1
    = Returned SQLITE_OK (t2, 2) /\
    Update t2 (insert_argv (integer_value 3) (blob_value blob_1_1)) 2
    = Thrown "The number of elements exceeds the specified limit" (t2, 3) /\
    zErrMsg t2 = None.
Proof. eexists _, _. repeat split. Qed.

(* ================================================================== *)
(** * Further properties of the adapter *)

(** ** Walking a cursor *)

Section Walk_properties.

Context {Index : Type} `{!HierarchicalNSW Index} `{!VectorMath}.

Lemma Next_result cursor : result (Next cursor).2 = result cursor.
Proof. unfold Next. destruct (negb _); reflexivity. Qed.

Lemma Next_position cursor :
  in_bounds cursor ->
  current_row (Next cursor).2 =
  Nat.min (S (current_row cursor)) (length (result cursor)).
Proof.
  unfold in_bounds, Next, cend. intros Hb.
  destruct (Nat.eqb_spec (current_row cursor) (length (result cursor)));
    cbn [negb snd current_row]; lia.
Qed.

Lemma Next_in_bounds cursor : in_bounds cursor -> in_bounds (Next cursor).2.
Proof.
  intros Hb. unfold in_bounds. rewrite Next_result, Next_position by assumption.
  lia.
Qed.

Lemma Next_times_S n cursor :
  Next_times (S n) cursor = (Next (Next_times n cursor)).2.
Proof. reflexivity. Qed.

(** X1: [Next] never moves a cursor past the end of its result: after [n]
    calls on a cursor within bounds the position is the old one plus [n],
    capped at the length of the result, and the result and the query vector
    are the same; every call returns [SQLITE_OK]. *)
Theorem Next_times_position cursor n :
  in_bounds cursor ->
  current_row (Next_times n cursor) =
    Nat.min (current_row cursor + n) (length (result cursor)) /\
  result (Next_times n cursor) = result cursor /\
  query_vector (Next_times n cursor) = query_vector cursor /\
  (Next (Next_times n cursor)).1 = SQLITE_OK.
Proof.
  intros Hb. induction n as [|n IH].
  - cbn. unfold in_bounds in Hb. repeat split.
    + lia.
    + unfold Next. destruct (negb _); reflexivity.
  - destruct IH as (Hpos & Hres & Hq & _).
    assert (Hb' : in_bounds (Next_times n cursor)).
    { unfold in_bounds. rewrite Hpos, Hres. lia. }
    rewrite !Next_times_S.
    rewrite Next_result, Next_position by assumption.
    rewrite Hpos, Hres. repeat split.
    + lia.
    + rewrite <- Hq. unfold Next. destruct (negb _); reflexivity.
    + unfold Next. destruct (negb _); reflexivity.
Qed.

Lemma current_row_lookup cursor :
  in_bounds cursor ->
  (Eof cursor = 1 /\ current_row cursor = length (result cursor)) \/
  (Eof cursor = 0 /\
   (current_row cursor =? cend (result cursor))%nat = false /\
   exists distance rowid,
     result cursor !! current_row cursor = Some (distance, rowid)).
Proof.
  unfold in_bounds, Eof, cend. intros Hb.
  destruct (Nat.eqb_spec (current_row cursor) (length (result cursor))) as [|Hne];
    [left; split; [reflexivity | assumption] | right].
  split; [reflexivity |]. split; [reflexivity |].
  destruct (lookup_lt_is_Some_2 (result cursor) (current_row cursor))
    as [[distance rowid] Hrow]; [lia |].
  exists distance, rowid. exact Hrow.
Qed.

(** X2: on a cursor within bounds [Rowid] never reads past the result: at
    the end it returns [SQLITE_ERROR] and leaves [*pRowid], before the end
    it returns [SQLITE_OK] with the rowid of the current row. *)
Theorem Rowid_in_bounds cursor pRowid :
  in_bounds cursor ->
  (Eof cursor = 1 /\ Rowid cursor pRowid = Returned SQLITE_ERROR pRowid) \/
  (Eof cursor = 0 /\
   exists distance rowid,
     result cursor !! current_row cursor = Some (distance, rowid) /\
     Rowid cursor pRowid = Returned SQLITE_OK rowid).
Proof.
  intros Hb.
  destruct (current_row_lookup cursor Hb)
    as [[Heof Hend] | (Heof & Hne & distance & rowid & Hrow)].
  - left. split; [assumption |]. unfold Rowid, cend.
    rewrite Hend, Nat.eqb_refl. reflexivity.
  - right. split; [assumption |]. exists distance, rowid.
    split; [assumption |]. unfold Rowid. rewrite Hne, Hrow. reflexivity.
Qed.

(** The host's row loop over a cursor within bounds reads exactly the rows
    from the current position to the end of the result, in the order of the
    result, each with its rowid and its distance, and then stops at [Eof]. *)
Lemma scan_reads_remaining_rows (vtab : VirtualTable Index) fuel : forall cursor,
  in_bounds cursor ->
  (length (result cursor) - current_row cursor <= fuel)%nat ->
  scan fuel vtab cursor =
  map (fun row => (row.2, row.1)) (drop (current_row cursor) (result cursor)).
Proof.
  induction fuel as [|fuel IH]; intros cursor Hb Hfuel.
  - unfold in_bounds in Hb. rewrite drop_ge by lia. reflexivity.
  - cbn [scan].
    destruct (current_row_lookup cursor Hb)
      as [[Heof Hend] | (Heof & Hne & distance & rowid & Hrow)].
    + rewrite Heof. cbn.
      rewrite drop_ge by lia. reflexivity.
    + rewrite Heof. unfold Rowid. rewrite Hne, Hrow. cbn [Z.eqb negb].
      unfold Column. rewrite Hne. cbn [Z.eqb kColumnIndexDistance].
      rewrite Hrow. cbn [fst snd Z.eqb SQLITE_OK andb].
      pose proof (Next_in_bounds cursor Hb) as Hb'.
      pose proof (Next_position cursor Hb) as Hpos.
      pose proof (Next_result cursor) as Hres.
      assert (Hrc : (Next cursor).1 = SQLITE_OK).
      { unfold Next. destruct (negb _); reflexivity. }
      destruct (Next cursor) as [rc3 cursor'] eqn:Hnext. cbn [fst snd] in *.
      subst rc3. cbn [Z.eqb SQLITE_OK].
      apply Nat.eqb_neq in Hne. unfold cend in Hne. unfold in_bounds in Hb.
      rewrite IH; [| assumption | rewrite Hpos, Hres; lia].
      rewrite Hpos, Hres.
      replace (Nat.min (S (current_row cursor)) (length (result cursor)))
        with (S (current_row cursor)) by lia.
      rewrite (drop_S (result cursor) (distance, rowid) (current_row cursor) Hrow).
      reflexivity.
Qed.

End Walk_properties.

Lemma Next_times_position_witness :
  let cursor :=
    {| result := [(zero_distance, 1); (zero_distance, 2)]; current_row := 1;
       query_vector := {| data := [] |} |} in
  in_bounds cursor /\
  current_row (Next_times 5 cursor) = 2%nat.
Proof.
  cbn zeta.
  assert (Hb : in_bounds
    {| result := [(zero_distance, 1); (zero_distance, 2)]; current_row := 1;
       query_vector := {| data := [] |} |}).
  { unfold in_bounds. simpl. lia. }
  split; [exact Hb |].
  exact (proj1 (Next_times_position _ 5 Hb)).
Defined.

Lemma Rowid_in_bounds_witness :
  let cursor :=
    {| result := [(zero_distance, 1); (zero_distance, 2)]; current_row := 1;
       query_vector := {| data := [] |} |} in
  in_bounds cursor /\
  ((Eof cursor = 1 /\ Rowid cursor 0 = Returned SQLITE_ERROR 0) \/
   (Eof cursor = 0 /\
    exists distance rowid,
      result cursor !! current_row cursor = Some (distance, rowid) /\
      Rowid cursor 0 = Returned SQLITE_OK rowid)).
Proof.
  cbn zeta.
  assert (Hb : in_bounds
    {| result := [(zero_distance, 1); (zero_distance, 2)]; current_row := 1;
       query_vector := {| data := [] |} |}).
  { unfold in_bounds. simpl. lia. }
  split; [exact Hb |].
  exact (Rowid_in_bounds _ 0 Hb).
Defined.

Example scan_two_rows :
  let cursor :=
    {| result := [(zero_distance, 1); (zero_distance, 2)]; current_row := 0;
       query_vector := {| data := [] |} |} in
  in_bounds cursor /\
  scan 7 one_row_table cursor = [(1, zero_distance); (2, zero_distance)].
Proof.
  cbn zeta.
  assert (Hb : in_bounds
    {| result := [(zero_distance, 1); (zero_distance, 2)]; current_row := 0;
       query_vector := {| data := [] |} |}).
  { unfold in_bounds. simpl. lia. }
  split; [exact Hb |].
  apply (scan_reads_remaining_rows one_row_table 7 _ Hb).
  simpl. lia.
Defined.

(** ** Filter, once more *)

Section Filter_outcomes.

Context {Index : Type} `{!HierarchicalNSW Index} `{!VectorMath}.

Lemma Filter_ok_inv (vtab : VirtualTable Index) cursor idxNum argv vtab' cursor' :
  Filter vtab cursor idxNum argv = Returned SQLITE_OK (vtab', cursor') ->
  idxNum = kVector /\ result cursor = [] /\ vtab' = vtab /\
  exists argv0 param,
    argv !! 0%nat = Some argv0 /\
    sqlite3_value_pointer argv0 kKnnParamType = Some param /\
    dim (param_query_vector param) = dimension vtab /\
    let stored :=
      if normalize (space_ vtab) then Normalize (param_query_vector param)
      else param_query_vector param in
    cursor' =
    {| result := searchKnnCloserFirst (index_ vtab) (data stored) (k param);
       current_row := 0; query_vector := stored |}.
Proof.
  unfold Filter. intros Heq.
  destruct (Z.eqb_spec idxNum kVector) as [-> |]; [| discriminate].
  destruct (argv !! 0%nat) as [argv0|]; [| discriminate].
  destruct (sqlite3_value_pointer argv0 kKnnParamType) as [param|] eqn:Hptr;
    [| discriminate].
  destruct (Nat.eqb_spec (dim (param_query_vector param)) (dimension vtab))
    as [Hdim|]; [| discriminate].
  cbn [negb] in Heq.
  destruct (result cursor) as [|row rest]; [| discriminate].
  cbn in Heq. injection Heq as <- <-.
  repeat split. exists argv0, param. repeat split; assumption.
Qed.

(** X3: after a [Filter] that returned [SQLITE_OK], the host's row loop
    reads exactly the rows the k-NN search gave for the stored query vector
    and the [k] of the parameter, in the order of the search (closer first),
    each with its label as rowid and its distance. *)
Theorem Filter_then_scan (vtab : VirtualTable Index) cursor idxNum argv vtab' cursor' fuel :
  Filter vtab cursor idxNum argv = Returned SQLITE_OK (vtab', cursor') ->
  (length (result cursor') <= fuel)%nat ->
  exists argv0 param,
    argv !! 0%nat = Some argv0 /\
    sqlite3_value_pointer argv0 kKnnParamType = Some param /\
    scan fuel vtab' cursor' =
    map (fun row => (row.2, row.1))
      (searchKnnCloserFirst (index_ vtab)
         (data (query_vector cursor')) (k param)).
Proof.
  intros Hok Hfuel.
  destruct (Filter_ok_inv _ _ _ _ _ _ Hok)
    as (_ & _ & _ & argv0 & param & H0 & Hptr & _ & Hcursor).
  cbn zeta in Hcursor. exists argv0, param.
  split; [exact H0 |]. split; [exact Hptr |].
  assert (Hb : in_bounds cursor').
  { rewrite Hcursor. unfold in_bounds. cbn. lia. }
  rewrite (scan_reads_remaining_rows vtab' fuel cursor' Hb) by lia.
  rewrite Hcursor. cbn. reflexivity.
Qed.


End Filter_outcomes.

Lemma Filter_then_scan_witness :
  Filter one_row_table Cursor_new kVector
    [pointer_value query_2d "vector_search_knn_param"] =
  Returned SQLITE_OK
    (one_row_table,
     {| result := [(zero_distance, 1)]; current_row := 0;
        query_vector := param_query_vector query_2d |}) /\
  exists argv0 param,
    [pointer_value query_2d "vector_search_knn_param"] !! 0%nat = Some argv0 /\
    sqlite3_value_pointer argv0 kKnnParamType = Some param /\
    scan 5 one_row_table
      {| result := [(zero_distance, 1)]; current_row := 0;
         query_vector := param_query_vector query_2d |} =
    map (fun row => (row.2, row.1))
      (searchKnnCloserFirst (index_ one_row_table)
         (data (param_query_vector query_2d)) (k param)).
Proof.
  split; [reflexivity |].
  assert (Hfuel : Nat.le (length (result
            {| result := [(zero_distance, 1)]; current_row := 0;
               query_vector := param_query_vector query_2d |})) 5).
  { simpl. lia. }
  exact (Filter_then_scan one_row_table Cursor_new kVector
           [pointer_value query_2d "vector_search_knn_param"]
           one_row_table
           {| result := [(zero_distance, 1)]; current_row := 0;
              query_vector := param_query_vector query_2d |}
           5 eq_refl Hfuel).
Defined.

(** ** Column on a row *)

Section Column_properties.

Context {Index : Type} `{!HierarchicalNSW Index} `{!VectorMath}.

Lemma lookup_not_cend cursor row :
  result cursor !! current_row cursor = Some row ->
  (current_row cursor =? cend (result cursor))%nat = false.
Proof.
  intros Hrow. apply Nat.eqb_neq. unfold cend.
  apply lookup_lt_Some in Hrow. lia.
Qed.

(** X5: on a cursor that stands on a row, [Column] gives the row's distance
    for column 1; for a column index other than 0 and 1 it returns
    [SQLITE_ERROR] with the text "Invalid column index: N"; and for column 0
    it returns [SQLITE_ERROR] with the text "Can't find vector with rowid R"
    when the index throws for the row's label. *)
Theorem Column_on_row (vtab : VirtualTable Index) cursor pCtx distance rowid :
  result cursor !! current_row cursor = Some (distance, rowid) ->
  Column vtab cursor pCtx kColumnIndexDistance =
    Returned SQLITE_OK (Some (ResultDouble distance)) /\
  (forall N, N <> kColumnIndexVector -> N <> kColumnIndexDistance ->
     Column vtab cursor pCtx N =
     Returned SQLITE_ERROR
       (Some (ResultText (StrFormat "Invalid column index: %d" [ArgInt N])))) /\
  (forall what,
     getDataByLabel (index_ vtab) (static_cast_labeltype rowid) = Raise what ->
     Column vtab cursor pCtx kColumnIndexVector =
     Returned SQLITE_ERROR
       (Some (ResultText
                (StrFormat "Can't find vector with rowid %d" [ArgInt rowid])))).
Proof.
  intros Hrow. pose proof (lookup_not_cend _ _ Hrow) as Hne.
  unfold Column. rewrite Hne, Hrow. split; [reflexivity |]. split.
  - intros N H0 H1.
    destruct (Z.eqb_spec kColumnIndexDistance N); [congruence |].
    destruct (Z.eqb_spec kColumnIndexVector N); [congruence |].
    reflexivity.
  - intros what Hraise. cbn [Z.eqb kColumnIndexDistance kColumnIndexVector fst snd].
    unfold GetVectorByRowid. rewrite Hraise. reflexivity.
Qed.

End Column_properties.

Lemma Column_on_row_witness :
  let cursor :=
    {| result := [(zero_distance, 1); (zero_distance, 2)]; current_row := 1;
       query_vector := {| data := [] |} |} in
  Column one_row_table cursor None 1 =
    Returned SQLITE_OK (Some (ResultDouble zero_distance)) /\
  Column one_row_table cursor None 5 =
    Returned SQLITE_ERROR (Some (ResultText "Invalid column index: 5")) /\
  Column one_row_table cursor None 0 =
    Returned SQLITE_ERROR (Some (ResultText "Can't find vector with rowid 2")).
Proof.
  cbn zeta.
  destruct (Column_on_row one_row_table
              {| result := [(zero_distance, 1); (zero_distance, 2)];
                 current_row := 1; query_vector := {| data := [] |} |}
              None zero_distance 2 eq_refl) as (Hd & Hbad & Hmiss).
  split; [exact Hd |]. split.
  - apply (Hbad 5); discriminate.
  - exact (Hmiss "Label not found"%string eq_refl).
Defined.

(** ** Update, once more *)

Section Update_outcomes.

Context {Index : Type} `{!HierarchicalNSW Index} `{!VectorMath}.

Lemma Update_ok_inv (vtab : VirtualTable Index) argv pRowid vtab' p' :
  Update vtab argv pRowid = Returned SQLITE_OK (vtab', p') ->
  insert_signature argv = true /\
  exists argv1 argv2 vector index',
    argv !! 1%nat = Some argv1 /\ argv !! 2%nat = Some argv2 /\
    0 <= sqlite3_value_int64 argv1 /\ p' = sqlite3_value_int64 argv1 /\
    sqlite3_value_type argv2 = SQLITE_BLOB /\
    FromBlob (sqlite3_value_blob argv2) = Ok vector /\
    dim vector = dimension vtab /\
    addPoint (index_ vtab)
      (if normalize (space_ vtab) then data (Normalize vector) else data vector)
      (static_cast_labeltype p') = Value index' /\
    vtab' = add_row vtab index' p'.
Proof.
  unfold Update, insert_signature. intros Heq.
  destruct (1 <? Z.of_nat (length argv)); [| discriminate].
  destruct (argv !! 0%nat) as [argv0|]; [| discriminate].
  destruct (argv !! 1%nat) as [argv1|]; [| discriminate].
  destruct (sqlite3_value_type argv0 =? SQLITE_NULL); [| discriminate].
  destruct (sqlite3_value_type argv1 =? SQLITE_NULL); [discriminate |].
  rewrite sqlite3_value_int64_le_max, to_int64_sqlite3_value_int64 in Heq.
  cbn [orb] in Heq.
  destruct (Z.ltb_spec (sqlite3_value_int64 argv1) 0) as [|Hrange];
    [discriminate |].
  destruct (argv !! 2%nat) as [argv2|]; [| discriminate].
  destruct (Z.eqb_spec (sqlite3_value_type argv2) SQLITE_BLOB) as [Hblob|];
    [| discriminate].
  cbn [negb] in Heq.
  destruct (FromBlob (sqlite3_value_blob argv2)) as [vector|st] eqn:Hdecode;
    [| discriminate].
  destruct (Nat.eqb_spec (dim vector) (dimension vtab)) as [Hdim|];
    [| discriminate].
  cbn [negb] in Heq.
  destruct (addPoint _ _ _) as [index'|what] eqn:Hadd; [| discriminate].
  injection Heq as <- <-.
  split; [reflexivity |].
  exists argv1, argv2, vector, index'.
  repeat split; first [assumption | reflexivity].
Qed.

(** X6: [Update] returns [SQLITE_OK] exactly when the call has the insert
    signature, the rowid is not negative, the vector argument is a blob
    that decodes to a vector of the table's dimension, and [addPoint]
    returns for that vector (normalized if the space says so) under the
    rowid as label.  The table is then the old one with the new index and
    the rowid added to the known-row set (the error message, if one was
    left by an earlier call, stays), and [*pRowid] is the rowid. *)
Theorem Update_ok_iff (vtab : VirtualTable Index) argv pRowid vtab' p' :
  Update vtab argv pRowid = Returned SQLITE_OK (vtab', p') <->
  insert_signature argv = true /\
  exists argv1 argv2 vector index',
    argv !! 1%nat = Some argv1 /\ argv !! 2%nat = Some argv2 /\
    0 <= sqlite3_value_int64 argv1 /\ p' = sqlite3_value_int64 argv1 /\
    sqlite3_value_type argv2 = SQLITE_BLOB /\
    FromBlob (sqlite3_value_blob argv2) = Ok vector /\
    dim vector = dimension vtab /\
    addPoint (index_ vtab)
      (if normalize (space_ vtab) then data (Normalize vector) else data vector)
      (static_cast_labeltype p') = Value index' /\
    vtab' = add_row vtab index' p'.
Proof.
  split; [apply Update_ok_inv |].
  intros (Hsig & argv1 & argv2 & vector & index' & H1 & H2 & Hrange & -> &
          Hblob & Hdecode & Hdim & Hadd & ->).
  rewrite (Update_valid_insert vtab argv argv1 argv2 vector pRowid)
    by assumption.
  cbn zeta. rewrite Hadd. reflexivity.
Qed.

(** X7: whatever the call, [Update] ends in one of these ways: it returns
    [SQLITE_OK]; it returns [SQLITE_ERROR] with an error message set and the
    vector space, the index and the known-row set untouched; an exception
    leaves it with the table untouched; or, for an insert with no third
    argument, [argv] is read past its end.  No assertion is involved. *)
Theorem Update_outcome (vtab : VirtualTable Index) argv pRowid :
  match Update vtab argv pRowid with
  | Returned rc (vtab', _) =>
    rc = SQLITE_OK \/
    (rc = SQLITE_ERROR /\ is_Some (zErrMsg vtab') /\
     space_ vtab' = space_ vtab /\ index_ vtab' = index_ vtab /\
     rowids_ vtab' = rowids_ vtab)
  | Thrown _ (vtab', _) => vtab' = vtab
  | AssertionFailed => False
  | OutOfBounds => insert_signature argv = true /\ argv !! 2%nat = None
  end.
Proof.
  assert (Herr : forall fmt args,
    SQLITE_ERROR = SQLITE_OK \/
    (SQLITE_ERROR = SQLITE_ERROR /\ is_Some (zErrMsg (SetZErrMsg vtab fmt args)) /\
     space_ (SetZErrMsg vtab fmt args) = space_ vtab /\
     index_ (SetZErrMsg vtab fmt args) = index_ vtab /\
     rowids_ (SetZErrMsg vtab fmt args) = rowids_ vtab)).
  { intros fmt args. right. repeat split. eauto. }
  unfold Update, insert_signature.
  destruct (1 <? Z.of_nat (length argv)) eqn:Hargc; [| apply Herr].
  destruct argv as [|argv0 [|argv1 rest]]; try discriminate Hargc.
  cbn [lookup list_lookup andb].
  destruct (sqlite3_value_type argv0 =? SQLITE_NULL); [| apply Herr].
  destruct (sqlite3_value_type argv1 =? SQLITE_NULL); [apply Herr |].
  destruct ((sqlite3_value_int64 argv1 >? INT64_MAX)
            || (sqlite3_value_int64 argv1 <? 0)); [apply Herr |].
  destruct rest as [|argv2 rest]; cbn [lookup list_lookup];
    [split; reflexivity |].
  destruct (negb (sqlite3_value_type argv2 =? SQLITE_BLOB)); [apply Herr |].
  destruct (FromBlob (sqlite3_value_blob argv2)) as [vector|st]; [| apply Herr].
  destruct (negb (dim vector =? dimension vtab)%nat); [apply Herr |].
  destruct (addPoint _ _ _); [left |]; reflexivity.
Qed.

(** X8: on an insert whose rowid passed the range check, the vector argument
    is first tested for its type and then for its dimension: a value that is
    not a blob is refused with "vector must be of type Blob", a blob that
    decodes to a vector of another dimension than the table's with a message
    that starts with "Dimension mismatch"; in both cases the index and the
    known-row set are untouched. *)
Theorem Update_vector_validation (vtab : VirtualTable Index) argv argv1 argv2 pRowid :
  insert_signature argv = true ->
  argv !! 1%nat = Some argv1 -> argv !! 2%nat = Some argv2 ->
  0 <= sqlite3_value_int64 argv1 ->
  (sqlite3_value_type argv2 <> SQLITE_BLOB ->
   fails_with (Update vtab argv pRowid) vtab (sqlite3_value_int64 argv1)
     "vector must be of type Blob") /\
  (sqlite3_value_type argv2 = SQLITE_BLOB ->
   forall vector,
     FromBlob (sqlite3_value_blob argv2) = Ok vector ->
     dim vector <> dimension vtab ->
     exists msg,
       fails_with (Update vtab argv pRowid) vtab (sqlite3_value_int64 argv1) msg /\
       String.prefix "Dimension mismatch" msg = true).
Proof.
  intros Hsig H1 H2 Hrange.
  destruct (insert_signature_inv _ Hsig)
    as (argv0 & argv1' & Hargc & H0 & H1' & Htype0 & Htype1).
  rewrite H1 in H1'. injection H1' as <-.
  unfold Update.
  rewrite Hargc, H0, H1, Htype0, Htype1.
  rewrite sqlite3_value_int64_le_max, to_int64_sqlite3_value_int64.
  cbn [orb].
  destruct (Z.ltb_spec (sqlite3_value_int64 argv1) 0) as [|_]; [lia |].
  rewrite H2. split.
  - intros Hblob.
    destruct (Z.eqb_spec (sqlite3_value_type argv2) SQLITE_BLOB);
      [contradiction |].
    exact (fails_with_SetZErrMsg vtab (sqlite3_value_int64 argv1)
             "vector must be of type Blob" []).
  - intros Hblob vector Hdecode Hdim.
    rewrite Hblob, Z.eqb_refl, Hdecode. cbn [negb].
    destruct (Nat.eqb_spec (dim vector) (dimension vtab)); [contradiction |].
    eexists. split; [apply fails_with_SetZErrMsg | reflexivity].
Qed.

(** X9: what was inserted can be fetched.  If [Update] returned
    [SQLITE_OK] for a blob that decodes to [vector], the index gives back
    under a label what [addPoint] was given under it, and normalizing (when
    the space asks for it) keeps the dimension, then [Column] for column 0
    on a cursor that stands on a row with that rowid returns [SQLITE_OK]
    with the blob of the stored vector: the dimension assertion of
    [GetVectorByRowid] holds. *)
Theorem Update_then_Column (vtab : VirtualTable Index) argv argv2 vector pRowid
    vtab' rowid cursor distance pCtx :
  Update vtab argv pRowid = Returned SQLITE_OK (vtab', rowid) ->
  argv !! 2%nat = Some argv2 ->
  FromBlob (sqlite3_value_blob argv2) = Ok vector ->
  (forall point label index',
     addPoint (index_ vtab) point label = Value index' ->
     getDataByLabel index' label = Value point) ->
  (normalize (space_ vtab) = true -> dim (Normalize vector) = dim vector) ->
  result cursor !! current_row cursor = Some (distance, rowid) ->
  Column vtab' cursor pCtx kColumnIndexVector =
  Returned SQLITE_OK
    (Some (ResultBlob
             (ToBlob (if normalize (space_ vtab) then Normalize vector
                      else vector)))).
Proof.
  intros Hok H2 Hdecode Hlaw Hnorm Hrow.
  destruct (Update_ok_inv _ _ _ _ _ Hok)
    as (_ & argv1 & argv2' & vector' & index' & _ & H2' & _ & _ & _ &
        Hdecode' & Hdim & Hadd & ->).
  rewrite H2 in H2'. injection H2' as <-.
  rewrite Hdecode in Hdecode'. injection Hdecode' as <-.
  pose proof (Hlaw _ _ _ Hadd) as Hget.
  unfold Column. rewrite (lookup_not_cend _ _ Hrow), Hrow.
  cbn [Z.eqb kColumnIndexDistance kColumnIndexVector fst snd].
  unfold GetVectorByRowid. cbn [index_ add_row]. rewrite Hget.
  unfold dimension in *. cbn [space_ add_row].
  destruct (normalize (space_ vtab)).
  - specialize (Hnorm eq_refl). unfold dim in *.
    rewrite Hnorm, Hdim, Nat.eqb_refl. destruct (Normalize vector); reflexivity.
  - unfold dim in Hdim. rewrite Hdim, Nat.eqb_refl. destruct vector; reflexivity.
Qed.

End Update_outcomes.

Lemma Update_ok_iff_witness :
  Update (new_table 2 2) (insert_argv (integer_value 1) (blob_value blob_1_0)) 0
  = Returned SQLITE_OK (one_row_table, 1).
Proof.
  apply (proj2 (Update_ok_iff (new_table 2 2)
                  (insert_argv (integer_value 1) (blob_value blob_1_0)) 0
                  one_row_table 1)).
  split; [reflexivity |].
  exists (integer_value 1), (blob_value blob_1_0),
    {| data := chunk4 blob_1_0 |},
    {| max_elements := 2; points := [(1, chunk4 blob_1_0)] |}.
  repeat split. vm_compute. discriminate.
Defined.

Lemma Update_vector_validation_witness :
  fails_with
    (Update one_row_table (insert_argv (integer_value 3) (integer_value 7)) 0)
    one_row_table 3 "vector must be of type Blob" /\
  exists msg,
    fails_with
      (Update one_row_table
         (insert_argv (integer_value 3) (blob_value [x00; x00; x80; x3f])) 0)
      one_row_table 3 msg /\
    String.prefix "Dimension mismatch" msg = true.
Proof.
  assert (Hrange : 0 <= sqlite3_value_int64 (integer_value 3)).
  { vm_compute. discriminate. }
  split.
  - apply (proj1 (Update_vector_validation one_row_table
                    (insert_argv (integer_value 3) (integer_value 7))
                    (integer_value 3) (integer_value 7) 0
                    eq_refl eq_refl eq_refl Hrange)).
    vm_compute. discriminate.
  - apply (proj2 (Update_vector_validation one_row_table
                    (insert_argv (integer_value 3) (blob_value [x00; x00; x80; x3f]))
                    (integer_value 3) (blob_value [x00; x00; x80; x3f]) 0
                    eq_refl eq_refl eq_refl Hrange)
             eq_refl {| data := [(x00, x00, x80, x3f)] |} eq_refl).
    vm_compute. lia.
Defined.

Lemma Update_then_Column_witness :
  Update (new_table 2 2) (insert_argv (integer_value 1) (blob_value blob_1_0)) 0
  = Returned SQLITE_OK (one_row_table, 1) /\
  Column one_row_table
    {| result := [(zero_distance, 1)]; current_row := 0;
       query_vector := {| data := [] |} |} None kColumnIndexVector
  = Returned SQLITE_OK (Some (ResultBlob blob_1_0)).
Proof.
  split; [reflexivity |].
  refine (Update_then_Column (new_table 2 2)
            (insert_argv (integer_value 1) (blob_value blob_1_0))
            (blob_value blob_1_0) {| data := chunk4 blob_1_0 |} 0
            one_row_table 1
            {| result := [(zero_distance, 1)]; current_row := 0;
               query_vector := {| data := [] |} |}
            zero_distance None eq_refl eq_refl eq_refl _ _ eq_refl).
  - intros point label index' Hadd. simpl in Hadd.
    injection Hadd as <-. simpl. rewrite Z.eqb_refl. reflexivity.
  - simpl. discriminate.
Defined.

(** ** knn_param, the planner and knn_search *)

Lemma to_int32_range z : - 2 ^ 31 <= to_int32 z < 2 ^ 31.
Proof.
  unfold to_int32.
  pose proof (Z.mod_pos_bound (z + 2 ^ 31) (2 ^ 32) ltac:(lia)). lia.
Qed.

Lemma length_two {A} (l : list A) :
  Z.of_nat (length l) = 2 -> exists x y, l = [x; y].
Proof.
  destruct l as [|x [|y [|z rest]]]; cbn [length]; intros Hlen; try lia.
  by exists x, y.
Qed.

Section Query_properties.

Context {Index : Type} `{!HierarchicalNSW Index} `{!VectorMath}.

Lemma KnnParamFunc_pointer_inv argv p tag :
  KnnParamFunc argv = Some (ResultPointer p tag) ->
  exists argv0 argv1 vec,
    argv = [argv0; argv1] /\
    sqlite3_value_type argv0 = SQLITE_BLOB /\
    sqlite3_value_type argv1 = SQLITE_INTEGER /\
    FromBlob (sqlite3_value_blob argv0) = Ok vec /\
    0 < sqlite3_value_int argv1 /\
    p = {| param_query_vector := vec; k := sqlite3_value_int argv1 |} /\
    tag = kKnnParamType.
Proof.
  unfold KnnParamFunc. intros Heq.
  destruct (Z.eqb_spec (Z.of_nat (length argv)) 2) as [Hlen|]; [| discriminate].
  destruct (length_two argv Hlen) as (argv0 & argv1 & ->).
  cbn [negb lookup list_lookup] in Heq.
  destruct (Z.eqb_spec (sqlite3_value_type argv0) SQLITE_BLOB) as [Hblob|];
    [| discriminate].
  destruct (Z.eqb_spec (sqlite3_value_type argv1) SQLITE_INTEGER) as [Hint|];
    [| discriminate].
  cbn [negb] in Heq.
  destruct (FromBlob (sqlite3_value_blob argv0)) as [vec|st] eqn:Hdecode;
    [| discriminate].
  destruct (Z.leb_spec (sqlite3_value_int argv1) 0) as [|Hk]; [discriminate |].
  injection Heq as <- <-.
  exists argv0, argv1, vec. repeat split; try assumption.
  pose proof (to_int32_range (value_int64 argv1)) as Hr.
  fold (sqlite3_value_int argv1) in Hr.
  rewrite Z.mod_small by lia. reflexivity.
Qed.

(** X10: [KnnParamFunc] hands back a pointer exactly when it is called with
    two arguments, a blob that decodes and an integer whose low 32 bits,
    read as an [int], are positive; the pointer then carries the decoded
    vector and that [int] as [k], under the tag "vector_search_knn_param".
    In every other case it reports an error and [argv] is never read past
    its end. *)
Theorem KnnParamFunc_pointer_iff argv :
  (forall p tag,
     KnnParamFunc argv = Some (ResultPointer p tag) <->
     exists argv0 argv1 vec,
       argv = [argv0; argv1] /\
       sqlite3_value_type argv0 = SQLITE_BLOB /\
       sqlite3_value_type argv1 = SQLITE_INTEGER /\
       FromBlob (sqlite3_value_blob argv0) = Ok vec /\
       0 < sqlite3_value_int argv1 /\
       p = {| param_query_vector := vec; k := sqlite3_value_int argv1 |} /\
       tag = "vector_search_knn_param"%string) /\
  ((exists p tag, KnnParamFunc argv = Some (ResultPointer p tag)) \/
   (exists msg, KnnParamFunc argv = Some (ResultError msg))).
Proof.
  split.
  - intros p tag. split; [apply KnnParamFunc_pointer_inv |].
    intros (argv0 & argv1 & vec & -> & Hblob & Hint & Hdecode & Hk & -> & ->).
    unfold KnnParamFunc. cbn [length Z.of_nat negb lookup list_lookup].
    rewrite Hblob, Hint, Hdecode. cbn [Z.eqb negb Pos.eqb SQLITE_BLOB SQLITE_INTEGER].
    destruct (Z.leb_spec (sqlite3_value_int argv1) 0); [lia |].
    pose proof (to_int32_range (value_int64 argv1)) as Hr.
    fold (sqlite3_value_int argv1) in Hr.
    rewrite Z.mod_small by lia. reflexivity.
  - unfold KnnParamFunc.
    destruct (Z.eqb_spec (Z.of_nat (length argv)) 2) as [Hlen|];
      [| right; eexists; reflexivity].
    destruct (length_two argv Hlen) as (argv0 & argv1 & ->).
    cbn [negb lookup list_lookup].
    destruct (negb (sqlite3_value_type argv0 =? SQLITE_BLOB));
      [right; eexists; reflexivity |].
    destruct (negb (sqlite3_value_type argv1 =? SQLITE_INTEGER));
      [right; eexists; reflexivity |].
    destruct (FromBlob (sqlite3_value_blob argv0));
      [| right; eexists; reflexivity].
    destruct (sqlite3_value_int argv1 <=? 0);
      [right | left]; repeat eexists.
Qed.

(** X11: the value of [knn_param] is what [Filter] looks for.  When
    [KnnParamFunc] hands back a pointer, its [k] lies between 1 and
    [2^31 - 1], and [Filter], given that value as [argv[0]] with
    [idxNum = kVector] on a cursor that holds no rows, searches the index
    with that [k] if the query has the table's dimension, and reports a
    dimension mismatch if not; the complaint about a missing [knn_param()]
    is never raised. *)
Theorem knn_param_then_Filter (vtab : VirtualTable Index) argv p tag cursor rest :
  KnnParamFunc argv = Some (ResultPointer p tag) ->
  result cursor = [] ->
  let filtered :=
    Filter vtab cursor kVector (value_of_result (ResultPointer p tag) :: rest) in
  let stored :=
    if normalize (space_ vtab) then Normalize (param_query_vector p)
    else param_query_vector p in
  1 <= k p <= 2 ^ 31 - 1 /\
  (dim (param_query_vector p) = dimension vtab ->
   filtered =
   Returned SQLITE_OK
     (vtab,
      {| result := searchKnnCloserFirst (index_ vtab) (data stored) (k p);
         current_row := 0; query_vector := stored |})) /\
  (dim (param_query_vector p) <> dimension vtab ->
   exists msg,
     fails_with filtered vtab cursor msg /\
     String.prefix "Dimension mismatch" msg = true).
Proof.
  intros Hparam Hempty filtered stored.
  destruct (KnnParamFunc_pointer_inv argv p tag Hparam)
    as (argv0 & argv1 & vec & _ & _ & _ & _ & Hk & Hp & ->).
  split.
  - rewrite Hp. cbn [k].
    pose proof (to_int32_range (value_int64 argv1)) as Hr.
    fold (sqlite3_value_int argv1) in Hr. lia.
  - unfold filtered, Filter. rewrite Z.eqb_refl.
    cbn [lookup list_lookup].
    rewrite (sqlite3_value_pointer_of_knn_param p).
    split; intros Hdim.
    + rewrite Hdim, Nat.eqb_refl, Hempty. reflexivity.
    + destruct (Nat.eqb_spec (dim (param_query_vector p)) (dimension vtab));
        [contradiction |].
      eexists. split; [apply fails_with_SetZErrMsg | reflexivity].
Qed.

Lemma BestIndex_idxNum (vtab : VirtualTable Index) info :
  idxNum (BestIndex vtab info).2 = last_idxNum (aConstraint info) (idxNum info).
Proof.
  unfold BestIndex. cbn [snd].
  by destruct (BestIndex_loop_spec (aConstraint info) 0%nat info)
    as (_ & _ & Hidx & _).
Qed.

(** X12: a plan whose last recognized constraint is on the rowid cannot be
    run: [BestIndex] leaves [idxNum = kRowid], and [Filter] answers that
    [idxNum] with [SQLITE_ERROR] and "Invalid index number: 2", also when a
    [knn_search] constraint came earlier in the list.  A plan without any
    recognized constraint keeps the [idxNum] the host handed in, and with
    the host's 0 [Filter] answers "Invalid index number: 0": a scan without
    [knn_search] is refused. *)
Theorem plan_without_knn_is_refused (vtab : VirtualTable Index) info cursor argv :
  let planned := idxNum (BestIndex vtab info).2 in
  (forall i c,
     aConstraint info !! i = Some c -> rowid_constraint c ->
     (forall j c', (i < j)%nat -> aConstraint info !! j = Some c' ->
        ignored_constraint c') ->
     planned = kRowid /\
     fails_with (Filter vtab cursor planned argv) vtab cursor
       "Invalid index number: 2") /\
  ((forall i c, aConstraint info !! i = Some c -> ignored_constraint c) ->
   idxNum info = 0 ->
   planned = 0 /\
   fails_with (Filter vtab cursor planned argv) vtab cursor
     "Invalid index number: 0").
Proof.
  intros planned. unfold planned. rewrite BestIndex_idxNum. split.
  - intros i c Hi Hc Hlater.
    rewrite (last_idxNum_last _ _ i c kRowid 2 Hi (recognized_rowid c Hc)).
    + split; [reflexivity |].
      exact (fails_with_SetZErrMsg vtab cursor "Invalid index number: %d"
               [ArgInt kRowid]).
    + intros j c' Hlt Hj. apply recognized_ignored. by apply (Hlater j c').
  - intros Hall Hzero. rewrite last_idxNum_ignored, Hzero.
    + split; [reflexivity |].
      exact (fails_with_SetZErrMsg vtab cursor "Invalid index number: %d"
               [ArgInt 0]).
    + intros i c Hi. apply recognized_ignored. by apply (Hall i c).
Qed.

(** X13: a plan whose last recognized constraint is the [knn_search]
    constraint on the vector column can be run: [BestIndex] leaves
    [idxNum = kVector], and [Filter], given that [idxNum], a value of
    [knn_param] of the table's dimension and a cursor that holds no rows,
    returns [SQLITE_OK] with the result of the search. *)
Theorem knn_plan_is_run (vtab : VirtualTable Index) info i c argv0 param cursor rest :
  aConstraint info !! i = Some c -> knn_constraint c ->
  (forall j c', (i < j)%nat -> aConstraint info !! j = Some c' ->
     ignored_constraint c') ->
  sqlite3_value_pointer argv0 kKnnParamType = Some param ->
  dim (param_query_vector param) = dimension vtab ->
  result cursor = [] ->
  let stored :=
    if normalize (space_ vtab) then Normalize (param_query_vector param)
    else param_query_vector param in
  idxNum (BestIndex vtab info).2 = kVector /\
  Filter vtab cursor (idxNum (BestIndex vtab info).2) (argv0 :: rest) =
  Returned SQLITE_OK
    (vtab,
     {| result := searchKnnCloserFirst (index_ vtab) (data stored) (k param);
        current_row := 0; query_vector := stored |}).
Proof.
  intros Hi Hc Hlater Hptr Hdim Hempty stored.
  rewrite BestIndex_idxNum.
  rewrite (last_idxNum_last _ _ i c kVector 1 Hi (recognized_knn c Hc)).
  - split; [reflexivity |].
    unfold Filter. rewrite Z.eqb_refl. cbn [lookup list_lookup].
    rewrite Hptr, Hdim, Nat.eqb_refl, Hempty. reflexivity.
  - intros j c' Hlt Hj. apply recognized_ignored. by apply (Hlater j c').
Qed.

(** X14: [FindFunction] overloads one name only: it returns a nonzero code
    exactly for "knn_search" (whatever [nArg] is), leaving [*pxFunc] and
    [*ppArg] alone otherwise.  The code it returns is at least
    [SQLITE_INDEX_CONSTRAINT_FUNCTION] and fits the [unsigned char] of a
    constraint's operator, and a usable constraint on the vector column that
    carries it is the one [BestIndex] turns into [idxNum = kVector] with
    [argvIndex = 1]. *)
Theorem FindFunction_knn_search nArg zName pxFunc ppArg :
  let found := FindFunction nArg zName pxFunc ppArg in
  (found.1 <> 0 <-> zName = "knn_search"%string) /\
  (found.1 = 0 -> found.2 = (pxFunc, ppArg)) /\
  (found.1 <> 0 ->
   found.2 = (KnnSearch_function, None) /\
   SQLITE_INDEX_CONSTRAINT_FUNCTION <= found.1 <= 255 /\
   forall i c info,
     usable c <> 0 -> iColumn c = kColumnIndexVector -> op c = found.1 ->
     BestIndex_body i c info = set_usage info i kVector 1).
Proof.
  cbn zeta. unfold FindFunction.
  destruct (String.eqb_spec zName "knn_search") as [-> | Hne]; cbn [fst snd].
  - split; [split; [reflexivity | discriminate] |].
    split; [discriminate |]. intros _.
    split; [reflexivity |]. split; [vm_compute; split; discriminate |].
    intros i c info Hu Hcol Hop.
    rewrite BestIndex_body_recognized, (recognized_knn c); [reflexivity |].
    by repeat split.
  - split; [split; [contradiction | intros ->; contradiction] |].
    split; [reflexivity | contradiction].
Qed.

End Query_properties.

Lemma KnnParamFunc_pointer_iff_witness :
  KnnParamFunc [blob_value blob_1_0; integer_value (2 ^ 32 + 1)] =
  Some (ResultPointer query_2d "vector_search_knn_param").
Proof.
  apply (proj1 (KnnParamFunc_pointer_iff
                  [blob_value blob_1_0; integer_value (2 ^ 32 + 1)])).
  exists (blob_value blob_1_0), (integer_value (2 ^ 32 + 1)),
    {| data := chunk4 blob_1_0 |}.
  repeat split.
Defined.

Lemma knn_param_then_Filter_witness :
  KnnParamFunc [blob_value blob_1_0; integer_value 1] =
    Some (ResultPointer query_2d "vector_search_knn_param") /\
  1 <= k query_2d <= 2 ^ 31 - 1 /\
  Filter one_row_table Cursor_new kVector
    [value_of_result (ResultPointer query_2d "vector_search_knn_param")] =
  Returned SQLITE_OK
    (one_row_table,
     {| result := [(zero_distance, 1)]; current_row := 0;
        query_vector := param_query_vector query_2d |}).
Proof.
  split; [reflexivity |].
  destruct (knn_param_then_Filter one_row_table
              [blob_value blob_1_0; integer_value 1]
              query_2d "vector_search_knn_param" Cursor_new []
              eq_refl eq_refl) as (Hk & Hrun & _).
  split; [exact Hk |]. exact (Hrun eq_refl).
Defined.

Lemma plan_without_knn_is_refused_witness :
  idxNum (BestIndex one_row_table knn_then_rowid).2 = kRowid /\
  fails_with
    (Filter one_row_table Cursor_new
       (idxNum (BestIndex one_row_table knn_then_rowid).2)
       [pointer_value query_2d "vector_search_knn_param"; integer_value 1])
    one_row_table Cursor_new "Invalid index number: 2".
Proof.
  apply (proj1 (plan_without_knn_is_refused one_row_table knn_then_rowid
                  Cursor_new
                  [pointer_value query_2d "vector_search_knn_param";
                   integer_value 1])
           2%nat {| iColumn := -1; op := 2; usable := 1 |} eq_refl).
  - split; [discriminate | reflexivity].
  - intros j c' Hlt Hj. do 3 (destruct j as [|j]; [lia |]). discriminate Hj.
Defined.

Lemma knn_plan_is_run_witness :
  let info :=
    {| aConstraint := [ {| iColumn := 0; op := 150; usable := 1 |} ];
       aConstraintUsage := [ {| argvIndex := 0; omit := 0 |} ];
       idxNum := 0 |} in
  idxNum (BestIndex one_row_table info).2 = kVector /\
  Filter one_row_table Cursor_new (idxNum (BestIndex one_row_table info).2)
    [pointer_value query_2d "vector_search_knn_param"] =
  Returned SQLITE_OK
    (one_row_table,
     {| result := [(zero_distance, 1)]; current_row := 0;
        query_vector := param_query_vector query_2d |}).
Proof.
  cbn zeta.
  refine (knn_plan_is_run one_row_table
            {| aConstraint := [ {| iColumn := 0; op := 150; usable := 1 |} ];
               aConstraintUsage := [ {| argvIndex := 0; omit := 0 |} ];
               idxNum := 0 |}
            0%nat {| iColumn := 0; op := 150; usable := 1 |}
            (pointer_value query_2d "vector_search_knn_param") query_2d
            Cursor_new [] eq_refl _ _ eq_refl eq_refl eq_refl).
  - repeat split. discriminate.
  - intros j c' Hlt Hj. destruct j as [|j]; [lia |]. discriminate Hj.
Defined.

Example FindFunction_is_case_sensitive :
  FindFunction 2 "KNN_SEARCH" (host_function 0) (Some 7) =
  (0, (host_function 0, Some 7)).
Proof. reflexivity. Qed.

(** ** Create *)

Lemma length_five {A} (l : list A) :
  Z.of_nat (length l) = 5 -> exists a b c d e, l = [a; b; c; d; e].
Proof.
  destruct l as [|a [|b [|c [|d [|e [|f rest]]]]]]; cbn [length];
    intros Hlen; try lia.
  by exists a, b, c, d, e.
Qed.

Section Create_properties.

Context {Index : Type}.
Variable config : Z.
Variable declare : string -> Z.
Variable Options : Type.
Variable parse_space : string -> StatusOr NamedVectorSpace.
Variable parse_options : string -> StatusOr Options.
Variable construct : NamedVectorSpace -> Options -> Exc (VirtualTable Index).

Abbreviation Create' :=
  (Create config declare Options parse_space parse_options construct).

(** X15: [Create] returns [SQLITE_OK] exactly when the host accepts the
    configuration call, there are five arguments (three of the host, then
    the space literal and the options literal), both literals parse, the
    host accepts the schema "CREATE TABLE X(<vector column>, distance REAL
    hidden)" and the table's constructor returns; [*ppVTab] is then the new
    table and [*pzErr] is left alone. *)
Theorem Create_ok_iff argv ppVTab0 pzErr0 out :
  (Create' argv ppVTab0 pzErr0 = Some out /\ create_rc out = SQLITE_OK) <->
  (config = SQLITE_OK /\
   exists a0 a1 a2 space_str options_str space options vtab,
     argv = [a0; a1; a2; space_str; options_str] /\
     parse_space space_str = Ok space /\
     parse_options options_str = Ok options /\
     let sql := StrFormat "CREATE TABLE X(%s, distance REAL hidden)"
                  [ArgStr (vector_name space)] in
     declare sql = SQLITE_OK /\
     construct space options = Value vtab /\
     out = {| create_rc := SQLITE_OK; ppVTab := Some vtab; pzErr := pzErr0;
              declared := Some sql |}).
Proof.
  split.
  - unfold Create. intros [Hout Hrc].
    destruct (Z.eqb_spec config SQLITE_OK) as [Hconfig|Hconfig]; cbn [negb] in Hout.
    2: { injection Hout as <-. cbn in Hrc. contradiction. }
    split; [assumption |].
    destruct (Z.eqb_spec (Z.of_nat (length argv)) (2 + kModuleParamOffset))
      as [Hlen|]; cbn [negb] in Hout.
    2: { injection Hout as <-. discriminate Hrc. }
    destruct (length_five argv Hlen) as (a0 & a1 & a2 & space_str & options_str & ->).
    cbn [lookup list_lookup] in Hout.
    destruct (parse_space space_str) as [space|st] eqn:Hspace.
    2: { injection Hout as <-. discriminate Hrc. }
    destruct (parse_options options_str) as [options|st] eqn:Hoptions.
    2: { injection Hout as <-. discriminate Hrc. }
    destruct (Z.eqb_spec
                (declare (StrFormat "CREATE TABLE X(%s, distance REAL hidden)"
                            [ArgStr (vector_name space)])) SQLITE_OK)
      as [Hdeclare|Hdeclare]; cbn [negb] in Hout.
    2: { injection Hout as <-. cbn in Hrc. contradiction. }
    destruct (construct space options) as [vtab|what] eqn:Hnew.
    2: { injection Hout as <-. discriminate Hrc. }
    injection Hout as <-.
    exists a0, a1, a2, space_str, options_str, space, options, vtab.
    repeat split; assumption.
  - intros (Hconfig & a0 & a1 & a2 & space_str & options_str & space & options &
            vtab & -> & Hspace & Hoptions & Hrest).
    cbn zeta in Hrest. destruct Hrest as (Hdeclare & Hnew & ->).
    split; [| reflexivity].
    unfold Create. rewrite Hconfig, Z.eqb_refl. cbn [negb].
    cbn [length Z.of_nat Pos.of_succ_nat Pos.succ Z.eqb Pos.eqb Z.add Pos.add
         kModuleParamOffset negb lookup list_lookup].
    rewrite Hspace, Hoptions, Hdeclare, Z.eqb_refl. cbn [negb].
    rewrite Hnew. reflexivity.
Qed.


End Create_properties.

Lemma Create_ok_iff_witness :
  Create SQLITE_OK demo_declare nat demo_space_parser demo_options_parser
    demo_constructor ["vector_search"; "main"; "t"; "v"; "2"] None None
  = Some {| create_rc := SQLITE_OK; ppVTab := Some (new_table 2 2);
            pzErr := None;
            declared := Some "CREATE TABLE X(v, distance REAL hidden)" |} /\
  create_rc
    {| create_rc := SQLITE_OK; ppVTab := Some (new_table 2 2); pzErr := None;
       declared := Some "CREATE TABLE X(v, distance REAL hidden)" |} = SQLITE_OK.
Proof.
  apply (proj2 (Create_ok_iff SQLITE_OK demo_declare nat demo_space_parser
                  demo_options_parser demo_constructor
                  ["vector_search"; "main"; "t"; "v"; "2"] None None
                  {| create_rc := SQLITE_OK; ppVTab := Some (new_table 2 2);
                     pzErr := None;
                     declared := Some "CREATE TABLE X(v, distance REAL hidden)" |})).
  split; [reflexivity |].
  exists "vector_search"%string, "main"%string, "t"%string, "v"%string,
    "2"%string, (l2_space 2), 2%nat, (new_table 2 2).
  repeat split.
Defined.

Example Create_one_module_argument :
  Create SQLITE_OK demo_declare nat demo_space_parser demo_options_parser
    demo_constructor ["vector_search"; "main"; "t"; "v"] None None
  = Some {| create_rc := SQLITE_ERROR; ppVTab := None;
            pzErr := Some "Expected 3 argument, got 1"; declared := None |}.
Proof. reflexivity. Qed.
